(** * ecs-fargate-cdk: environment resolution, stack assembly and the deploy wrapper

    A shallow embedding of

    - [lib/config/environment-config.ts]: the [RegionConfig] and
      [EnvironmentConfig] interfaces and the [environments] table;
    - [bin/ecs-service-app.ts]: the CDK app that resolves the environment
      and the stack type from the context and builds one stack per region;
    - [lib/ecs-service-stack.ts], [lib/ecs-service-cfn-stack.ts] and the two
      versions of [lib/simple-ecs-service-stack.ts]: what each stack hands
      to the container definition, the service and the auto-scaling;
    - [scripts/deploy.sh]: argument validation and action dispatch;
    - [scripts/localstack.sh]: the management script for the local
      emulation, with its functions and its command dispatch.

    JavaScript objects are association lists in property insertion order:
    [Object.values] and [Object.entries] enumerate in that order, and the
    app fans out over it.  Numbers are [Z]; strings are [string]. *)

From Stdlib Require Import String Ascii List ZArith Bool Lia DecimalString.
Import ListNotations.

Local Open Scope string_scope.
Local Open Scope Z_scope.

(** ** JavaScript objects with string keys *)

Module JsObject.

(** The own enumerable properties, oldest first.  (Keys that look like
    array indices would be enumerated first by a JavaScript engine; no
    object of this program has such a key.) *)
Definition t (V : Type) : Type := list (string * V).

Section Operations.
Context {V : Type}.

Definition empty : t V := [].

(** Own-property read: [Object.hasOwn(o, k) ? o[k] : undefined]. *)
Fixpoint get (o : t V) (k : string) : option V :=
  match o with
  | [] => None
  | (k', v) :: rest => if String.eqb k' k then Some v else get rest k
  end.

(** [o[k] = v]: an existing property keeps its place, a new one is
    added last. *)
Fixpoint set (o : t V) (k : string) (v : V) : t V :=
  match o with
  | [] => [(k, v)]
  | (k', v') :: rest =>
      if String.eqb k' k then (k', v) :: rest
      else (k', v') :: set rest k v
  end.

Definition keys (o : t V) : list string := map fst o.
Definition values (o : t V) : list V := map snd o.
Definition entries (o : t V) : list (string * V) := o.

(** [{ ...target, ...source }] once [target] holds the properties
    written before the spread: each property of [source] is assigned
    in turn, so a later one replaces an earlier one of the same name. *)
Definition spread (target source : t V) : t V :=
  fold_left (fun acc kv => set acc (fst kv) (snd kv)) source target.

(** An object literal [{ k1: v1, ..., kn: vn }]. *)
Definition literal (props : list (string * V)) : t V :=
  spread empty props.

(** The names every object literal inherits from [Object.prototype]. *)
Definition object_prototype_properties : list string :=
  [ "constructor"; "__defineGetter__"; "__defineSetter__";
    "hasOwnProperty"; "__lookupGetter__"; "__lookupSetter__";
    "isPrototypeOf"; "propertyIsEnumerable"; "toString"; "valueOf";
    "__proto__"; "toLocaleString" ].

Definition inherited (k : string) : bool :=
  existsb (String.eqb k) object_prototype_properties.

(** The result of the property read [o[k]] on an object literal: an own
    property, a member of [Object.prototype] (a function, or the
    prototype itself for [__proto__]), or [undefined]. *)
Inductive property : Type :=
| Own (v : V)
| Inherited (name : string)
| Undefined.

Definition get_property (o : t V) (k : string) : property :=
  match get o k with
  | Some v => Own v
  | None => if inherited k then Inherited k else Undefined
  end.

(** Truthiness of the value read: objects and functions are truthy,
    [undefined] is not. *)
Definition truthy (p : property) : bool :=
  match p with
  | Own _ | Inherited _ => true
  | Undefined => false
  end.
End Operations.

Arguments property V : clear implicits.
End JsObject.

(** ** lib/config/environment-config.ts *)

Record RegionConfig : Type := {
  region : string;
  vpcId : string;
  subnetIds : list string;
  securityGroupIds : list string;
  certificateArn : string;
  hostedZoneId : string
}.

Record EnvironmentConfig : Type := {
  appName : string;
  environment : string;
  regions : JsObject.t RegionConfig;
  iamRoleArn : string;
  domainName : string;
  containerImage : string;
  containerPort : Z;
  healthCheckPath : string;
  minCapacity : Z;
  maxCapacity : Z;
  desiredCount : Z;
  cpu : Z;
  memory : Z;
  containerEnvironmentVariables : JsObject.t string
}.

Definition environments : JsObject.t EnvironmentConfig :=
  Eval cbv in
  JsObject.literal [
    ("local", {|
      appName := "mcp-gw";
      environment := "local";
      regions := JsObject.literal [
        ("us-east-1", {|
          region := "us-east-1";
          vpcId := "vpc-12345678";
          subnetIds := ["subnet-12345678"; "subnet-87654321"];
          securityGroupIds := ["sg-ae374e9b657d70aa0"];
          certificateArn := "arn:aws:acm:us-east-1:000000000000:certificate/d332aa69-965b-4973-b83d-67fec57413a7";
          hostedZoneId := "0SQTVEPGW0AFBRL" |}) ];
      iamRoleArn := "arn:aws:iam::000000000000:role/ecs-task-role";
      domainName := "local.mcp-gw.com";
      containerImage := "mcp-gw-sample-app:latest";
      containerPort := 8000;
      healthCheckPath := "/ready/status";
      minCapacity := 1;
      maxCapacity := 2;
      desiredCount := 1;
      cpu := 256;
      memory := 512;
      containerEnvironmentVariables := JsObject.literal [
        ("NODE_ENV", "development");
        ("LOG_LEVEL", "debug");
        ("API_VERSION", "v1");
        ("DATABASE_POOL_SIZE", "2");
        ("CACHE_TTL", "60") ] |});
    ("dev", {|
      appName := "mcp-gw";
      environment := "dev";
      regions := JsObject.literal [
        ("us-east-1", {|
          region := "us-east-1";
          vpcId := "vpc-dev-us-east-1-xxxxxxxxx";
          subnetIds := ["subnet-dev-us-east-1-xxxxxxxxx"; "subnet-dev-us-east-1-yyyyyyyyy"];
          securityGroupIds := ["sg-dev-us-east-1-xxxxxxxxx"];
          certificateArn := "arn:aws:acm:us-east-1:123456789012:certificate/dev-xxxxxxxxx";
          hostedZoneId := "Z1234567890123" |}) ];
      iamRoleArn := "arn:aws:iam::123456789012:role/dev-ecs-task-role";
      domainName := "dev.yourdomain.com";
      containerImage := "your-ecr-repo:dev-latest";
      containerPort := 8000;
      healthCheckPath := "/ready/status";
      minCapacity := 1;
      maxCapacity := 5;
      desiredCount := 2;
      cpu := 256;
      memory := 512;
      containerEnvironmentVariables := JsObject.literal [
        ("NODE_ENV", "development");
        ("LOG_LEVEL", "debug");
        ("API_VERSION", "v1");
        ("DATABASE_POOL_SIZE", "5");
        ("CACHE_TTL", "300") ] |});
    ("qa", {|
      appName := "mcp-gw";
      environment := "qa";
      regions := JsObject.literal [
        ("us-east-1", {|
          region := "us-east-1";
          vpcId := "vpc-qa-us-east-1-xxxxxxxxx";
          subnetIds := ["subnet-qa-us-east-1-xxxxxxxxx"; "subnet-qa-us-east-1-yyyyyyyyy"];
          securityGroupIds := ["sg-qa-us-east-1-xxxxxxxxx"];
          certificateArn := "arn:aws:acm:us-east-1:123456789012:certificate/qa-xxxxxxxxx";
          hostedZoneId := "Z1234567890123" |});
        ("us-west-2", {|
          region := "us-west-2";
          vpcId := "vpc-qa-us-west-2-xxxxxxxxx";
          subnetIds := ["subnet-qa-us-west-2-xxxxxxxxx"; "subnet-qa-us-west-2-yyyyyyyyy"];
          securityGroupIds := ["sg-qa-us-west-2-xxxxxxxxx"];
          certificateArn := "arn:aws:acm:us-west-2:123456789012:certificate/qa-xxxxxxxxx";
          hostedZoneId := "Z1234567890123" |}) ];
      iamRoleArn := "arn:aws:iam::123456789012:role/qa-ecs-task-role";
      domainName := "qa.yourdomain.com";
      containerImage := "your-ecr-repo:qa-latest";
      containerPort := 8000;
      healthCheckPath := "/ready/status";
      minCapacity := 2;
      maxCapacity := 10;
      desiredCount := 3;
      cpu := 512;
      memory := 1024;
      containerEnvironmentVariables := JsObject.literal [
        ("NODE_ENV", "staging");
        ("LOG_LEVEL", "info");
        ("API_VERSION", "v1");
        ("DATABASE_POOL_SIZE", "10");
        ("CACHE_TTL", "600");
        ("ENABLE_METRICS", "true") ] |});
    ("prod", {|
      appName := "mcp-gw";
      environment := "prod";
      regions := JsObject.literal [
        ("us-east-1", {|
          region := "us-east-1";
          vpcId := "vpc-prod-us-east-1-xxxxxxxxx";
          subnetIds := ["subnet-prod-us-east-1-xxxxxxxxx"; "subnet-prod-us-east-1-yyyyyyyyy"];
          securityGroupIds := ["sg-prod-us-east-1-xxxxxxxxx"];
          certificateArn := "arn:aws:acm:us-east-1:123456789012:certificate/prod-xxxxxxxxx";
          hostedZoneId := "Z1234567890123" |});
        ("us-west-2", {|
          region := "us-west-2";
          vpcId := "vpc-prod-us-west-2-xxxxxxxxx";
          subnetIds := ["subnet-prod-us-west-2-xxxxxxxxx"; "subnet-prod-us-west-2-yyyyyyyyy"];
          securityGroupIds := ["sg-prod-us-west-2-xxxxxxxxx"];
          certificateArn := "arn:aws:acm:us-west-2:123456789012:certificate/prod-xxxxxxxxx";
          hostedZoneId := "Z1234567890123" |}) ];
      iamRoleArn := "arn:aws:iam::123456789012:role/prod-ecs-task-role";
      domainName := "prod.yourdomain.com";
      containerImage := "your-ecr-repo:prod-latest";
      containerPort := 8000;
      healthCheckPath := "/ready/status";
      minCapacity := 5;
      maxCapacity := 20;
      desiredCount := 10;
      cpu := 1024;
      memory := 2048;
      containerEnvironmentVariables := JsObject.literal [
        ("NODE_ENV", "production");
        ("LOG_LEVEL", "warn");
        ("API_VERSION", "v1");
        ("DATABASE_POOL_SIZE", "20");
        ("CACHE_TTL", "900");
        ("ENABLE_METRICS", "true");
        ("PERFORMANCE_MONITORING", "true") ] |}) ].

(** ** The stacks

    A stack is kept as the part of its resource description that depends
    on the configuration: names, the container definition, the service and
    its auto-scaling, the certificate of the HTTPS listener and the DNS
    record.  The constructs of the provisioning library are descriptions;
    building one cannot fail here. *)

Inductive StackClass : Type :=
| EcsServiceStackClass
| EcsServiceCfnStackClass
| SimpleEcsServiceStackClass.

Inductive DeploymentControllerType : Type := ECS | CODE_DEPLOY.

Inductive PredefinedMetric : Type :=
| ECSServiceAverageCPUUtilization
| ECSServiceAverageMemoryUtilization.

(** A target-tracking scaling policy; cool-downs in seconds. *)
Record ScalingPolicy : Type := {
  policyId : string;
  predefinedMetricType : PredefinedMetric;
  targetValue : Z;
  scaleInCooldown : Z;
  scaleOutCooldown : Z
}.

Record ScalableTarget : Type := {
  targetMinCapacity : Z;
  targetMaxCapacity : Z;
  scalingPolicies : list ScalingPolicy
}.

(** [props.env] of a stack. *)
Record StackEnv : Type := {
  account : option string;
  envRegion : string
}.

Record StackProps : Type := {
  env : StackEnv;
  environmentConfig : EnvironmentConfig;
  regionConfig : RegionConfig
}.

Record Stack : Type := {
  stackClass : StackClass;
  stackId : string;
  stackEnv : StackEnv;
  clusterName : string;
  logGroupName : string;
  taskFamily : string;
  taskRoleArn : string;
  image : string;
  portMappings : list Z;
  (** the container's environment, as name/value pairs in the order the
      container definition receives them *)
  containerEnvironment : list (string * string);
  loadBalancerName : string;
  listenerCertificateArn : string;
  serviceName : string;
  serviceDesiredCount : Z;
  deploymentController : DeploymentControllerType;
  autoScaling : option ScalableTarget;
  recordHostedZoneId : string;
  recordName : string
}.

(** [`${appName}-${environment}-${kind}${region}`]: the naming scheme shared
    by all resources; [kind] is the infix with its trailing dash. *)
Definition resourceName (ec : EnvironmentConfig) (rc : RegionConfig)
    (kind : string) : string :=
  appName ec ++ "-" ++ environment ec ++ "-" ++ kind ++ region rc.

(** The [environment] object of the container definition in the stacks
    built from high-level constructs:
    [{ ENVIRONMENT: ..., REGION: ..., ...containerEnvironmentVariables }]. *)
Definition containerEnvironmentObject (ec : EnvironmentConfig)
    (rc : RegionConfig) : JsObject.t string :=
  JsObject.spread
    (JsObject.literal [ ("ENVIRONMENT", environment ec);
                        ("REGION", region rc) ])
    (containerEnvironmentVariables ec).

(** The [environment] array of the container definition in the CFN stack:
    the two system entries followed by [Object.entries] of the custom
    variables. *)
Definition containerEnvironmentArray (ec : EnvironmentConfig)
    (rc : RegionConfig) : list (string * string) :=
  [ ("ENVIRONMENT", environment ec); ("REGION", region rc) ]
  ++ map (fun '(name, value) => (name, value))
       (JsObject.entries (containerEnvironmentVariables ec)).

(** [scalableTarget.scaleOnCpuUtilization] and [scaleOnMemoryUtilization]
    of the high-level constructs: a target-tracking policy on the
    predefined ECS service metric. *)
Definition scaleOnCpuUtilization (id : string) (targetUtilizationPercent
    scaleIn scaleOut : Z) : ScalingPolicy :=
  {| policyId := id;
     predefinedMetricType := ECSServiceAverageCPUUtilization;
     targetValue := targetUtilizationPercent;
     scaleInCooldown := scaleIn;
     scaleOutCooldown := scaleOut |}.

Definition scaleOnMemoryUtilization (id : string) (targetUtilizationPercent
    scaleIn scaleOut : Z) : ScalingPolicy :=
  {| policyId := id;
     predefinedMetricType := ECSServiceAverageMemoryUtilization;
     targetValue := targetUtilizationPercent;
     scaleInCooldown := scaleIn;
     scaleOutCooldown := scaleOut |}.

(** lib/ecs-service-stack.ts *)
Definition EcsServiceStack (id : string) (props : StackProps) : Stack :=
  let ec := environmentConfig props in
  let rc := regionConfig props in
  {| stackClass := EcsServiceStackClass;
     stackId := id;
     stackEnv := env props;
     clusterName := resourceName ec rc "cluster-";
     logGroupName := "/ecs/" ++ resourceName ec rc "service-";
     taskFamily := resourceName ec rc "task-";
     taskRoleArn := iamRoleArn ec;
     image := containerImage ec;
     portMappings := [containerPort ec];
     containerEnvironment :=
       JsObject.entries (containerEnvironmentObject ec rc);
     loadBalancerName := resourceName ec rc "alb-";
     listenerCertificateArn := certificateArn rc;
     serviceName := resourceName ec rc "service-";
     serviceDesiredCount := desiredCount ec;
     deploymentController := CODE_DEPLOY;
     autoScaling := Some
       {| targetMinCapacity := minCapacity ec;
          targetMaxCapacity := maxCapacity ec;
          scalingPolicies :=
            [ scaleOnCpuUtilization "CpuScaling" 70 300 300;
              scaleOnMemoryUtilization "MemoryScaling" 80 300 300 ] |};
     recordHostedZoneId := hostedZoneId rc;
     recordName := resourceName ec rc "" |}.

(** lib/ecs-service-cfn-stack.ts: the same resources from low-level
    constructs; the two [CfnScalingPolicy] resources are of policy type
    [TargetTrackingScaling] on the one [CfnScalableTarget]. *)
Definition EcsServiceCfnStack (id : string) (props : StackProps) : Stack :=
  let ec := environmentConfig props in
  let rc := regionConfig props in
  {| stackClass := EcsServiceCfnStackClass;
     stackId := id;
     stackEnv := env props;
     clusterName := resourceName ec rc "cfn-cluster-";
     logGroupName := "/ecs/" ++ resourceName ec rc "cfn-service-";
     taskFamily := resourceName ec rc "cfn-task-";
     taskRoleArn := iamRoleArn ec;
     image := containerImage ec;
     portMappings := [containerPort ec];
     containerEnvironment := containerEnvironmentArray ec rc;
     loadBalancerName := resourceName ec rc "cfn-alb-";
     listenerCertificateArn := certificateArn rc;
     serviceName := resourceName ec rc "cfn-service-";
     serviceDesiredCount := desiredCount ec;
     deploymentController := CODE_DEPLOY;
     autoScaling := Some
       {| targetMinCapacity := minCapacity ec;
          targetMaxCapacity := maxCapacity ec;
          scalingPolicies :=
            [ {| policyId := "CfnCpuScalingPolicy";
                 predefinedMetricType := ECSServiceAverageCPUUtilization;
                 targetValue := 70;
                 scaleInCooldown := 300;
                 scaleOutCooldown := 300 |};
              {| policyId := "CfnMemoryScalingPolicy";
                 predefinedMetricType := ECSServiceAverageMemoryUtilization;
                 targetValue := 80;
                 scaleInCooldown := 300;
                 scaleOutCooldown := 300 |} ] |};
     recordHostedZoneId := hostedZoneId rc;
     recordName := resourceName ec rc "cfn-" |}.

(** lib/simple-ecs-service-stack.ts, host-based routing: three container
    ports, the default ECS deployment controller, one task and no
    auto-scaling ("Auto-scaling removed - running with fixed task count of
    1"). *)
Definition SimpleEcsServiceStack (id : string) (props : StackProps) : Stack :=
  let ec := environmentConfig props in
  let rc := regionConfig props in
  {| stackClass := SimpleEcsServiceStackClass;
     stackId := id;
     stackEnv := env props;
     clusterName := resourceName ec rc "simple-cluster-";
     logGroupName := "/ecs/" ++ resourceName ec rc "simple-service-";
     taskFamily := resourceName ec rc "simple-task-";
     taskRoleArn := iamRoleArn ec;
     image := containerImage ec;
     portMappings := [8000; 8001; 8002];
     containerEnvironment :=
       JsObject.entries (containerEnvironmentObject ec rc);
     loadBalancerName := resourceName ec rc "simple-alb-";
     listenerCertificateArn := certificateArn rc;
     serviceName := resourceName ec rc "simple-service-";
     serviceDesiredCount := 1;
     deploymentController := ECS;
     autoScaling := None;
     recordHostedZoneId := hostedZoneId rc;
     recordName := resourceName ec rc "simple-" |}.

(** The other version of the simple stack (path-based routing with the
    redirect rules): the configured task count and the same auto-scaling
    as [EcsServiceStack]. *)
Definition SimpleEcsServiceStack_pathRouting (id : string)
    (props : StackProps) : Stack :=
  let ec := environmentConfig props in
  let rc := regionConfig props in
  {| stackClass := SimpleEcsServiceStackClass;
     stackId := id;
     stackEnv := env props;
     clusterName := resourceName ec rc "simple-cluster-";
     logGroupName := "/ecs/" ++ resourceName ec rc "simple-service-";
     taskFamily := resourceName ec rc "simple-task-";
     taskRoleArn := iamRoleArn ec;
     image := containerImage ec;
     portMappings := [8000; 8001; 8002];
     containerEnvironment :=
       JsObject.entries (containerEnvironmentObject ec rc);
     loadBalancerName := resourceName ec rc "simple-alb-";
     listenerCertificateArn := certificateArn rc;
     serviceName := resourceName ec rc "simple-service-";
     serviceDesiredCount := desiredCount ec;
     deploymentController := ECS;
     autoScaling := Some
       {| targetMinCapacity := minCapacity ec;
          targetMaxCapacity := maxCapacity ec;
          scalingPolicies :=
            [ scaleOnCpuUtilization "CpuScaling" 70 300 300;
              scaleOnMemoryUtilization "MemoryScaling" 80 300 300 ] |};
     recordHostedZoneId := hostedZoneId rc;
     recordName := resourceName ec rc "simple-" |}.

(** ** bin/ecs-service-app.ts *)

(** What the script can throw: the two [Error]s it raises itself, and the
    [TypeError] of [Object.values(undefined)]. *)
Inductive Exception : Type :=
| EnvironmentNotFound (environmentName : string)
| StackTypeNotSupported (stackType : string)
| TypeError (message : string).

Definition message (e : Exception) : string :=
  match e with
  | EnvironmentNotFound environmentName =>
      "Environment '" ++ environmentName ++ "' not found in configuration"
  | StackTypeNotSupported stackType =>
      "Stack type '" ++ stackType
      ++ "' not supported. Use 'high-level' or 'cfn'"
  | TypeError m => m
  end.

(** The [cdk.App]: the stacks constructed under it so far, oldest first. *)
Record App : Type := { stacks : list Stack }.

(** [new cdk.App()] *)
Definition newApp : App := {| stacks := [] |}.

Module Script.
(** A statement of the script either completes with a value or throws;
    either way it leaves the app in some state. *)
Inductive completion (A : Type) : Type :=
| Normal (a : A)
| Throw (e : Exception).
Arguments Normal {A} a.
Arguments Throw {A} e.

Definition M (A : Type) : Type := App -> App * completion A.

Definition ret {A} (a : A) : M A := fun app => (app, Normal a).

Definition bind {A B} (m : M A) (k : A -> M B) : M B :=
  fun app =>
    match m app with
    | (app', Normal a) => k a app'
    | (app', Throw e) => (app', Throw e)
    end.

Definition throw {A} (e : Exception) : M A := fun app => (app, Throw e).

(** [new SomeStack(app, id, props)]: the stack becomes a child of the
    app. *)
Definition construct (s : Stack) : M unit :=
  fun app => ({| stacks := stacks app ++ [s] |}, Normal tt).

Definition when (b : bool) (m : M unit) : M unit :=
  if b then m else ret tt.

(** [xs.forEach(f)] *)
Fixpoint forEach {A} (xs : list A) (f : A -> M unit) : M unit :=
  match xs with
  | [] => ret tt
  | x :: rest => bind (f x) (fun _ => forEach rest f)
  end.
End Script.

Declare Scope script_scope.
Delimit Scope script_scope with script.
Notation "x <- m ;; k" := (Script.bind m (fun x => k))
  (at level 100, m at next level, right associativity) : script_scope.
Notation "m ;; k" := (Script.bind m (fun _ => k))
  (at level 100, right associativity) : script_scope.

(** A context value as [app.node.tryGetContext] returns it: [undefined]
    ([None]) when the key is not set, the string given with [-c key=value]
    otherwise. *)
Definition ContextValue : Type := option string.

(** [value || fallback]: [undefined] and the empty string are falsy. *)
Definition orDefault (value : ContextValue) (fallback : string) : string :=
  match value with
  | Some s => if String.eqb s "" then fallback else s
  | None => fallback
  end.

(** [array.includes(x)] on strings *)
Definition includes (array : list string) (x : string) : bool :=
  existsb (String.eqb x) array.

(** The body of the script after [const app = new cdk.App()].
    [tryGetContext] is [app.node.tryGetContext] and [CDK_DEFAULT_ACCOUNT]
    is [process.env.CDK_DEFAULT_ACCOUNT].

    [Object.values(environmentConfig.regions)] needs an own entry of the
    table: a member inherited from [Object.prototype] is truthy but has no
    [regions] property, and [Object.values(undefined)] throws a
    [TypeError]. *)
Definition main (tryGetContext : string -> ContextValue)
    (CDK_DEFAULT_ACCOUNT : option string) : Script.M unit :=
  (let environmentName := orDefault (tryGetContext "environment") "dev" in
   let environmentConfig := JsObject.get_property environments environmentName in
   let stackType := orDefault (tryGetContext "stackType") "high-level" in
   Script.when (negb (JsObject.truthy environmentConfig))
     (Script.throw (EnvironmentNotFound environmentName)) ;;
   Script.when (negb (includes ["high-level"; "cfn"] stackType))
     (Script.throw (StackTypeNotSupported stackType)) ;;
   match environmentConfig with
   | JsObject.Own environmentConfig =>
       Script.forEach (JsObject.values (regions environmentConfig))
         (fun regionConfig =>
            let stackSuffix :=
              if String.eqb stackType "cfn" then "-cfn" else "" in
            let stackId :=
              appName environmentConfig ++ "-"
              ++ environment environmentConfig ++ "-"
              ++ region regionConfig ++ stackSuffix in
            let props :=
              {| env := {| account := CDK_DEFAULT_ACCOUNT;
                           envRegion := region regionConfig |};
                 environmentConfig := environmentConfig;
                 regionConfig := regionConfig |} in
            if String.eqb stackType "cfn"
            then Script.construct (EcsServiceCfnStack stackId props)
            else Script.construct (EcsServiceStack stackId props))
   | _ =>
       Script.throw (TypeError "Cannot convert undefined or null to object")
   end)%script.

(** Running the script from a fresh app. *)
Definition run (tryGetContext : string -> ContextValue)
    (CDK_DEFAULT_ACCOUNT : option string) : App * Script.completion unit :=
  main tryGetContext CDK_DEFAULT_ACCOUNT newApp.

(** The context given by [-c key=value] options, the last one of a key
    winning. *)
Fixpoint contextOf (options : list (string * string)) (key : string)
  : ContextValue :=
  match options with
  | [] => None
  | (k, v) :: rest =>
      match contextOf rest key with
      | Some v' => Some v'
      | None => if String.eqb k key then Some v else None
      end
  end.

(** ** Splitting strings *)

(** [s.split(sep)] for a one-character separator: the fields between the
    separators, empty ones included. *)
Fixpoint split (sep : ascii) (s : string) : list string :=
  match s with
  | EmptyString => [EmptyString]
  | String c rest =>
      if Ascii.eqb c sep then EmptyString :: split sep rest
      else match split sep rest with
           | field :: fields => String c field :: fields
           | [] => [String c EmptyString]
           end
  end.

(** The region of an ARN [arn:partition:service:region:account:resource]:
    its fourth colon-separated component. *)
Definition arnRegion (arn : string) : option string :=
  nth_error (split ":"%char arn) 3.

(** ** scripts/deploy.sh *)

Module DeploySh.

(** What a run of the script leaves behind: its exit status, the lines
    it printed and the command lines it ran, oldest first. *)
Record outcome : Type := {
  status : Z;
  printed : list string;
  executed : list (list string)
}.

(** Field splitting of an unquoted expansion on blanks. *)
Definition words (s : string) : list string :=
  filter (fun w => negb (String.eqb w "")) (split " "%char s).

(** [$n], empty when the positional parameter is unset. *)
Definition positional (argv : list string) (n : nat) : string :=
  nth (Nat.pred n) argv "".

(** [${value:-fallback}] *)
Definition orElse (value fallback : string) : string :=
  if String.eqb value "" then fallback else value.

Section Script.
(** The exit status of the provisioning tool for a command line. *)
Variable tool : list string -> Z.

(** Running a simple command as the last step under [set -e]: the
    script ends with the status of the command either way. *)
Definition exec (lines : list string) (command : list string) : outcome :=
  {| status := tool command;
     printed := lines;
     executed := [command] |}.

Definition fail (lines : list string) : outcome :=
  {| status := 1; printed := lines; executed := [] |}.

Definition deploy_sh (name : string) (argv : list string) : outcome :=
  let ENVIRONMENT := positional argv 1 in
  let ACTION := orElse (positional argv 2) "deploy" in
  let STACK_TYPE := orElse (positional argv 3) "high-level" in
  if String.eqb ENVIRONMENT "" then
    fail [ "Usage: " ++ name ++ " <environment> [action] [stackType]";
           "Environment: dev, qa, prod";
           "Action: deploy (default), diff, destroy, synth";
           "StackType: high-level (default), cfn" ]
  else if negb (String.eqb ENVIRONMENT "dev")
          && negb (String.eqb ENVIRONMENT "qa")
          && negb (String.eqb ENVIRONMENT "prod") then
    fail [ "Error: Environment must be one of: dev, qa, prod" ]
  else if negb (String.eqb STACK_TYPE "high-level")
          && negb (String.eqb STACK_TYPE "cfn") then
    fail [ "Error: Stack type must be one of: high-level, cfn" ]
  else
    let STACK_TYPE_PARAM :=
      if String.eqb STACK_TYPE "cfn" then "-c stackType=cfn" else "" in
    let running :=
      "Running CDK " ++ ACTION ++ " for environment: " ++ ENVIRONMENT
      ++ " (stack type: " ++ STACK_TYPE ++ ")" in
    if String.eqb ACTION "deploy" then
      exec [running]
        ([ "npx"; "cdk"; "deploy"; "--all"; "-c";
           "environment=" ++ ENVIRONMENT ]
         ++ words STACK_TYPE_PARAM ++ [ "--require-approval"; "never" ])
    else if String.eqb ACTION "diff" then
      exec [running]
        ([ "npx"; "cdk"; "diff"; "-c"; "environment=" ++ ENVIRONMENT ]
         ++ words STACK_TYPE_PARAM)
    else if String.eqb ACTION "destroy" then
      exec [running]
        ([ "npx"; "cdk"; "destroy"; "--all"; "-c";
           "environment=" ++ ENVIRONMENT ]
         ++ words STACK_TYPE_PARAM ++ [ "--force" ])
    else if String.eqb ACTION "synth" then
      exec [running]
        ([ "npx"; "cdk"; "synth"; "-c"; "environment=" ++ ENVIRONMENT ]
         ++ words STACK_TYPE_PARAM)
    else
      fail [ running;
             "Error: Invalid action. Must be one of: deploy, diff, destroy, synth" ].
End Script.

Definition environmentsAccepted : list string := ["dev"; "qa"; "prod"].
Definition actionsAccepted : list string :=
  ["deploy"; "diff"; "destroy"; "synth"].
Definition stackTypesAccepted : list string := ["high-level"; "cfn"].
End DeploySh.

(** ** scripts/localstack.sh *)

Module LocalstackSh.

(** What a run of the script does that can be seen from outside: the
    commands it runs (external programs, and the builtins [cd], [source]
    and [[ ]] whose outcome depends on the machine) and the lines it
    prints. *)
Inductive event : Type :=
| Ran (command : list string)
| Printed (line : string).

(** How many commands a trace has run. *)
Fixpoint ranCount (t : list event) : nat :=
  match t with
  | [] => 0
  | Ran _ :: rest => S (ranCount rest)
  | Printed _ :: rest => ranCount rest
  end.

(** A step either goes on with a value or ends the script with a status
    ([exit], or a failing command under [set -e]). *)
Inductive outcome (A : Type) : Type :=
| Done (a : A)
| Exited (status : Z).
Arguments Done {A} a.
Arguments Exited {A} status.

Definition sh (A : Type) : Type := list event -> list event * outcome A.

Definition ret {A} (a : A) : sh A := fun t => (t, Done a).

Definition bind {A B} (m : sh A) (k : A -> sh B) : sh B :=
  fun t =>
    match m t with
    | (t', Done a) => k a t'
    | (t', Exited status) => (t', Exited status)
    end.

Definition exit {A} (status : Z) : sh A := fun t => (t, Exited status).

Definition echo (line : string) : sh unit :=
  fun t => ((t ++ [Printed line])%list, Done tt).

Definition when (b : bool) (m : sh unit) : sh unit :=
  if b then m else ret tt.

Declare Scope sh_scope.
Delimit Scope sh_scope with sh.
Notation "x <- m ;; k" := (bind m (fun x => k))
  (at level 100, m at next level, right associativity) : sh_scope.
Notation "m ;; k" := (bind m (fun _ => k))
  (at level 100, right associativity) : sh_scope.

(** [n] in decimal, as [$attempt] expands. *)
Definition decimal (n : nat) : string :=
  NilZero.string_of_uint (Nat.to_uint n).

Definition quote : string := String (ascii_of_nat 34) EmptyString.
Definition newline : string := String (ascii_of_nat 10) EmptyString.

(** The assume-role policy document of [create-role], a single-quoted
    word over several lines. *)
Definition assumeRolePolicyDocument : string :=
  let q := fun s => quote ++ s ++ quote in
  "{" ++ newline
  ++ "            " ++ q "Version" ++ ": " ++ q "2012-10-17" ++ "," ++ newline
  ++ "            " ++ q "Statement" ++ ": [" ++ newline
  ++ "                {" ++ newline
  ++ "                    " ++ q "Effect" ++ ": " ++ q "Allow" ++ "," ++ newline
  ++ "                    " ++ q "Principal" ++ ": {" ++ newline
  ++ "                        " ++ q "Service" ++ ": "
  ++ q "ecs-tasks.amazonaws.com" ++ newline
  ++ "                    }," ++ newline
  ++ "                    " ++ q "Action" ++ ": " ++ q "sts:AssumeRole" ++ newline
  ++ "                }" ++ newline
  ++ "            ]" ++ newline
  ++ "        }".

Definition max_attempts : nat := 30.

Definition healthCheck : list string :=
  ["curl"; "-s"; "http://localhost:4566/_localstack/health"].

Definition endpoint : string := "--endpoint-url=http://localhost:4566".

Section Script.
(** The exit status of the [n]-th command the script runs, counted from
    0: what the machine answers. *)
Variable statusOf : nat -> Z.
(** [$0] *)
Variable name : string.
(** The directory above the one of the script; the two assignments that
    compute it are taken to succeed. *)
Variable PROJECT_DIR : string.
(** The fields of the output of [date +%s]. *)
Variable timestamp : list string.

(** Running a command where its status is looked at or ignored: in the
    condition of an [if], before [||], or in a pipeline. *)
Definition try (command : list string) : sh Z :=
  fun t => ((t ++ [Ran command])%list, Done (statusOf (ranCount t))).

(** Running a command as a statement under [set -e]. *)
Definition checked (command : list string) : sh unit :=
  (status <- try command ;;
   if status =? 0 then ret tt else exit status)%sh.

(** [command || true] *)
Definition tolerated (command : list string) : sh unit :=
  (_ <- try command ;; ret tt)%sh.

(** Calling a function as a statement under [set -e]: a non-zero return
    status ends the script. *)
Definition call (f : sh Z) : sh unit :=
  (status <- f ;;
   if status =? 0 then ret tt else exit status)%sh.

Definition check_localstack : sh Z :=
  (status <- try healthCheck ;;
   ret (if status =? 0 then 0 else 1))%sh.

(** The [while] loop of [wait_for_localstack]: [attempt] runs from 1 to
    [max_attempts], and [remaining] counts the iterations left.
    [((attempt++))] has status 0, as [attempt] is never 0. *)
Fixpoint wait_loop (remaining attempt : nat) : sh Z :=
  match remaining with
  | O =>
      (echo "LocalStack failed to start within expected time" ;;
       ret 1)%sh
  | S remaining' =>
      (up <- check_localstack ;;
       if up =? 0 then
         echo "LocalStack is ready!" ;;
         ret 0
       else
         echo ("Attempt " ++ decimal attempt ++ "/" ++ decimal max_attempts
               ++ ": LocalStack not ready yet...") ;;
         checked ["sleep"; "5"] ;;
         wait_loop remaining' (S attempt))%sh
  end.

Definition wait_for_localstack : sh Z :=
  (echo "Waiting for LocalStack to be ready..." ;;
   wait_loop max_attempts 1)%sh.

(** The exports of the function only set the environment of the [aws]
    commands. *)
Definition init_localstack : sh unit :=
  (echo "Initializing LocalStack resources..." ;;
   echo "Creating default VPC and networking..." ;;
   tolerated ["aws"; "ec2"; "create-default-vpc"; endpoint] ;;
   echo "Creating security group..." ;;
   tolerated ["aws"; "ec2"; "create-security-group";
              "--group-name"; "default-sg";
              "--description"; "Default security group for LocalStack";
              endpoint] ;;
   tolerated ["aws"; "ec2"; "authorize-security-group-ingress";
              "--group-id"; "sg-12345678"; "--protocol"; "tcp";
              "--port"; "80"; "--cidr"; "0.0.0.0/0"; endpoint] ;;
   tolerated ["aws"; "ec2"; "authorize-security-group-ingress";
              "--group-id"; "sg-12345678"; "--protocol"; "tcp";
              "--port"; "443"; "--cidr"; "0.0.0.0/0"; endpoint] ;;
   tolerated ["aws"; "ec2"; "authorize-security-group-ingress";
              "--group-id"; "sg-12345678"; "--protocol"; "tcp";
              "--port"; "8000"; "--cidr"; "0.0.0.0/0"; endpoint] ;;
   echo "Creating IAM role..." ;;
   tolerated ["aws"; "iam"; "create-role"; "--role-name"; "ecs-task-role";
              "--assume-role-policy-document"; assumeRolePolicyDocument;
              endpoint] ;;
   tolerated ["aws"; "iam"; "attach-role-policy";
              "--role-name"; "ecs-task-role"; "--policy-arn";
              "arn:aws:iam::aws:policy/service-role/AmazonECSTaskExecutionRolePolicy";
              endpoint] ;;
   echo "Creating ACM certificate..." ;;
   tolerated ["aws"; "acm"; "request-certificate";
              "--domain-name"; "*.mcp-gw.com";
              "--subject-alternative-names"; "mcp-gw.com";
              "--validation-method"; "DNS"; endpoint] ;;
   echo "Creating Route53 hosted zone..." ;;
   _ <- try ["date"; "+%s"] ;;
   tolerated (["aws"; "route53"; "create-hosted-zone";
               "--name"; "mcp-gw.com"; "--caller-reference"]
              ++ timestamp ++ [endpoint]) ;;
   echo "LocalStack initialization completed!")%sh.

Definition build_sample_app : sh unit :=
  (echo "Building sample application..." ;;
   checked ["cd"; PROJECT_DIR ++ "/localstack/sample-app"] ;;
   missing <- try ["["; "!"; "-f"; "package-lock.json"; "]"] ;;
   when (missing =? 0) (checked ["npm"; "install"]) ;;
   checked ["docker"; "build"; "-t"; "mcp-gw-sample-app:latest"; "."] ;;
   echo "Sample application built successfully!" ;;
   checked ["cd"; PROJECT_DIR])%sh.

Definition compose (arguments : list string) : list string :=
  ["docker-compose"; "--env-file"; ".env.localstack"] ++ arguments.

(** Starting LocalStack where a command finds it down: the body shared by
    [init] and [deploy] up to the wait. *)
Definition startFirst : sh unit :=
  (echo "LocalStack is not running. Starting LocalStack first..." ;;
   checked ["cd"; PROJECT_DIR] ;;
   checked (compose ["up"; "-d"; "localstack"]) ;;
   call wait_for_localstack)%sh.

Definition help : sh unit :=
  (echo "LocalStack management script for MCP Gateway" ;;
   echo "" ;;
   echo ("Usage: " ++ name ++ " [command]") ;;
   echo "" ;;
   echo "Commands:" ;;
   echo "  start      - Start LocalStack services" ;;
   echo "  start-ui   - Start LocalStack with GUI interfaces" ;;
   echo "  stop       - Stop LocalStack services" ;;
   echo "  restart    - Restart LocalStack services" ;;
   echo "  status     - Check LocalStack status" ;;
   echo "  logs       - Show LocalStack logs" ;;
   echo "  init       - Initialize LocalStack resources (VPC, IAM, etc.)" ;;
   echo "  build      - Build sample application Docker image" ;;
   echo "  deploy     - Deploy CDK stack to LocalStack" ;;
   echo "  destroy    - Destroy CDK stack in LocalStack" ;;
   echo "  help       - Show this help message")%sh.

Definition localstack_sh (argv : list string) : sh unit :=
  (haveEnv <- try ["["; "-f"; PROJECT_DIR ++ "/.env.localstack"; "]"] ;;
   when (haveEnv =? 0)
     (checked ["source"; PROJECT_DIR ++ "/.env.localstack"]) ;;
   let COMMAND := DeploySh.orElse (DeploySh.positional argv 1) "help" in
   if String.eqb COMMAND "start" then
     echo "Starting LocalStack..." ;;
     checked ["cd"; PROJECT_DIR] ;;
     checked (compose ["up"; "-d"; "localstack"]) ;;
     call wait_for_localstack
   else if String.eqb COMMAND "start-ui" then
     echo "Starting LocalStack with GUI..." ;;
     checked ["cd"; PROJECT_DIR] ;;
     checked (compose ["--profile"; "ui"; "up"; "-d"]) ;;
     call wait_for_localstack ;;
     echo "LocalStack GUIs available:" ;;
     echo "  - Built-in Web UI: http://localhost:4566/_localstack/cockpit" ;;
     echo "  - LocalStack UI: http://localhost:8080" ;;
     echo "  - AWS CLI Web: http://localhost:8081"
   else if String.eqb COMMAND "stop" then
     echo "Stopping LocalStack..." ;;
     checked ["cd"; PROJECT_DIR] ;;
     checked (compose ["down"])
   else if String.eqb COMMAND "restart" then
     echo "Restarting LocalStack..." ;;
     checked ["cd"; PROJECT_DIR] ;;
     checked (compose ["restart"; "localstack"]) ;;
     call wait_for_localstack
   else if String.eqb COMMAND "status" then
     up <- check_localstack ;;
     if up =? 0 then
       echo "LocalStack is running" ;;
       _ <- try healthCheck ;;
       formatted <- try ["jq"; "."] ;;
       when (negb (formatted =? 0))
         (echo "LocalStack is running but health endpoint not responding properly")
     else
       echo "LocalStack is not running"
   else if String.eqb COMMAND "logs" then
     echo "Showing LocalStack logs..." ;;
     checked ["cd"; PROJECT_DIR] ;;
     checked (compose ["logs"; "-f"; "localstack"])
   else if String.eqb COMMAND "init" then
     up <- check_localstack ;;
     when (negb (up =? 0)) startFirst ;;
     init_localstack
   else if String.eqb COMMAND "build" then
     build_sample_app
   else if String.eqb COMMAND "deploy" then
     echo "Deploying to LocalStack..." ;;
     up <- check_localstack ;;
     when (negb (up =? 0)) (startFirst ;; init_localstack) ;;
     build_sample_app ;;
     checked ["cd"; PROJECT_DIR] ;;
     checked ["source"; ".env.localstack"] ;;
     echo "Deploying CDK stack to LocalStack..." ;;
     checked ["cdklocal"; "deploy"; "--all"; "-c"; "environment=local";
              "--require-approval"; "never"]
   else if String.eqb COMMAND "destroy" then
     echo "Destroying LocalStack deployment..." ;;
     checked ["cd"; PROJECT_DIR] ;;
     checked ["source"; ".env.localstack"] ;;
     checked ["cdklocal"; "destroy"; "--all"; "-c"; "environment=local";
              "--force"]
   else
     help)%sh.
End Script.

(** The exit status of the script. *)
Definition status (r : outcome unit) : Z :=
  match r with
  | Done _ => 0
  | Exited s => s
  end.

(** The commands of a trace, in order. *)
Fixpoint commands (t : list event) : list (list string) :=
  match t with
  | [] => []
  | Ran command :: rest => command :: commands rest
  | Printed _ :: rest => commands rest
  end.

(** What one failed attempt of the wait adds to the trace. *)
Definition failedAttempt (attempt : nat) : list event :=
  [ Ran healthCheck;
    Printed ("Attempt " ++ decimal attempt ++ "/" ++ decimal max_attempts
             ++ ": LocalStack not ready yet...");
    Ran ["sleep"; "5"] ].

Definition commandNames : list string :=
  ["start"; "start-ui"; "stop"; "restart"; "status"; "logs"; "init";
   "build"; "deploy"; "destroy"].

(** Two command lines are the same, word by word. *)
Fixpoint sameWords (a b : list string) : bool :=
  match a, b with
  | [], [] => true
  | x :: a', y :: b' => String.eqb x y && sameWords a' b'
  | _, _ => false
  end.

(** How often a trace runs [command]. *)
Definition occurrences (command : list string) (t : list event) : nat :=
  length (filter (sameWords command) (commands t)).

(** A step adds at most [polls] health checks and [sleeps] sleeps to the
    trace, whatever the trace it starts from. *)
Definition bounded {A} (polls sleeps : nat) (m : sh A) : Prop :=
  forall t, exists d,
    fst (m t) = (t ++ d)%list
    /\ (occurrences healthCheck d <= polls)%nat
    /\ (occurrences ["sleep"; "5"] d <= sleeps)%nat.

End LocalstackSh.

(** ** Vocabulary of the properties *)

(** The stack the [forEach] callback of the app constructs for one region
    of the resolved environment. *)
Definition stackOf (stackType : string) (CDK_DEFAULT_ACCOUNT : option string)
    (ec : EnvironmentConfig) (rc : RegionConfig) : Stack :=
  let stackSuffix := if String.eqb stackType "cfn" then "-cfn" else "" in
  let stackId :=
    appName ec ++ "-" ++ environment ec ++ "-" ++ region rc ++ stackSuffix in
  let props :=
    {| env := {| account := CDK_DEFAULT_ACCOUNT; envRegion := region rc |};
       environmentConfig := ec;
       regionConfig := rc |} in
  if String.eqb stackType "cfn" then EcsServiceCfnStack stackId props
  else EcsServiceStack stackId props.



(** [ec] with other custom container variables. *)
Definition withVariables (ec : EnvironmentConfig)
    (variables : JsObject.t string) : EnvironmentConfig :=
  {| appName := appName ec;
     environment := environment ec;
     regions := regions ec;
     iamRoleArn := iamRoleArn ec;
     domainName := domainName ec;
     containerImage := containerImage ec;
     containerPort := containerPort ec;
     healthCheckPath := healthCheckPath ec;
     minCapacity := minCapacity ec;
     maxCapacity := maxCapacity ec;
     desiredCount := desiredCount ec;
     cpu := cpu ec;
     memory := memory ec;
     containerEnvironmentVariables := variables |}.


(** The [dev] entry of the table and its one region, for examples. *)
Definition devRegion : RegionConfig :=
  {| region := "us-east-1";
     vpcId := "vpc-dev-us-east-1-xxxxxxxxx";
     subnetIds := ["subnet-dev-us-east-1-xxxxxxxxx"; "subnet-dev-us-east-1-yyyyyyyyy"];
     securityGroupIds := ["sg-dev-us-east-1-xxxxxxxxx"];
     certificateArn := "arn:aws:acm:us-east-1:123456789012:certificate/dev-xxxxxxxxx";
     hostedZoneId := "Z1234567890123" |}.

Definition devConfig : EnvironmentConfig :=
  {| appName := "mcp-gw";
     environment := "dev";
     regions := JsObject.literal [("us-east-1", devRegion)];
     iamRoleArn := "arn:aws:iam::123456789012:role/dev-ecs-task-role";
     domainName := "dev.yourdomain.com";
     containerImage := "your-ecr-repo:dev-latest";
     containerPort := 8000;
     healthCheckPath := "/ready/status";
     minCapacity := 1;
     maxCapacity := 5;
     desiredCount := 2;
     cpu := 256;
     memory := 512;
     containerEnvironmentVariables := JsObject.literal [
       ("NODE_ENV", "development");
       ("LOG_LEVEL", "debug");
       ("API_VERSION", "v1");
       ("DATABASE_POOL_SIZE", "5");
       ("CACHE_TTL", "300") ] |}.

(** A configuration whose custom variables name a system key. *)
Definition overridingConfig : EnvironmentConfig :=
  withVariables devConfig
    (JsObject.literal [("LOG_LEVEL", "debug"); ("ENVIRONMENT", "prod")]).

(** The props the app would pass for [ec] and [rc]. *)
Definition propsOf (ec : EnvironmentConfig) (rc : RegionConfig) : StackProps :=
  {| env := {| account := None; envRegion := region rc |};
     environmentConfig := ec;
     regionConfig := rc |}.

(** The names a stack gives its resources: cluster, log group, task
    family, load balancer, service and DNS record. *)
Definition resourceNames (s : Stack) : list string :=
  [ clusterName s; logGroupName s; taskFamily s; loadBalancerName s;
    serviceName s; recordName s ].



(** A word the shell leaves alone when it is expanded unquoted: not
    empty, and free of blanks and of pattern characters. *)
Definition plainWord (w : string) : bool :=
  negb (String.eqb w "")
  && forallb
       (fun c =>
          negb (existsb (Ascii.eqb c)
                  [" "%char; "009"%char; "010"%char; "*"%char; "?"%char;
                   "["%char]))
       (list_ascii_of_string w).

(** * Properties *)

(** ** Objects *)

Module JsObjectFacts.
Import JsObject.

Section Facts.
Context {V : Type}.
Implicit Types (o : t V) (k : string) (v : V).

Lemma get_set_same o k v : get (set o k v) k = Some v.
Proof.
  induction o as [|[k' v'] o IH]; simpl.
  - now rewrite String.eqb_refl.
  - destruct (String.eqb k' k) eqn:E; simpl; now rewrite E.
Qed.

Lemma get_set_other o k k' v : k <> k' -> get (set o k v) k' = get o k'.
Proof.
  intros Hne.
  induction o as [|[k0 v0] o IH]; simpl.
  - apply String.eqb_neq in Hne. now rewrite Hne.
  - destruct (String.eqb k0 k) eqn:E; simpl.
    + apply String.eqb_eq in E; subst k0.
      apply String.eqb_neq in Hne. now rewrite Hne.
    + now rewrite IH.
Qed.

Lemma keys_set o k v k' :
  In k' (keys (set o k v)) <-> k' = k \/ In k' (keys o).
Proof.
  unfold keys.
  induction o as [|[k0 v0] o IH]; simpl.
  - intuition.
  - destruct (String.eqb k0 k) eqn:E; simpl.
    + apply String.eqb_eq in E; subst k0. intuition.
    + rewrite IH. intuition.
Qed.

Lemma get_None_keys o k : get o k = None <-> ~ In k (keys o).
Proof.
  unfold keys.
  induction o as [|[k0 v0] o IH]; simpl.
  - intuition.
  - destruct (String.eqb k0 k) eqn:E.
    + apply String.eqb_eq in E. split; [discriminate | intuition].
    + apply String.eqb_neq in E. rewrite IH. intuition.
Qed.

Lemma get_In o k v : get o k = Some v -> In (k, v) o.
Proof.
  induction o as [|[k0 v0] o IH]; simpl; [discriminate|].
  destruct (String.eqb k0 k) eqn:E.
  - apply String.eqb_eq in E. intros [= ->]. left. now subst.
  - auto.
Qed.


(** Assigning keeps every key once. *)
Lemma NoDup_keys_set o k v : NoDup (keys o) -> NoDup (keys (set o k v)).
Proof.
  unfold keys.
  induction o as [|[k0 v0] o IH]; simpl; intros Hnd.
  - repeat constructor. intros [].
  - inversion Hnd as [|? ? Hnotin Hrest]; subst.
    destruct (String.eqb k0 k) eqn:E; simpl.
    + now constructor.
    + constructor; [|now apply IH].
      intros Hin. apply (keys_set o k v k0) in Hin.
      apply String.eqb_neq in E. destruct Hin; [congruence | contradiction].
Qed.

(** The keys of a spread: those of the target and those of the
    source. *)
Lemma keys_spread (source : t V) : forall (target : t V) k,
  In k (keys (spread target source))
  <-> In k (keys target) \/ In k (keys source).
Proof.
  unfold spread.
  induction source as [|[k0 v0] source IH]; intros target k; simpl.
  - intuition.
  - rewrite IH, keys_set. simpl. intuition.
Qed.

Lemma NoDup_keys_spread (source : t V) : forall target : t V,
  NoDup (keys target) -> NoDup (keys (spread target source)).
Proof.
  unfold spread.
  induction source as [|[k0 v0] source IH]; intros target Hnd; simpl.
  - exact Hnd.
  - apply IH. now apply NoDup_keys_set.
Qed.

(** A key the source does not have keeps the value of the target. *)
Lemma get_spread_target (source : t V) : forall (target : t V) k,
  get source k = None -> get (spread target source) k = get target k.
Proof.
  unfold spread.
  induction source as [|[k0 v0] source IH]; intros target k; simpl.
  - reflexivity.
  - destruct (String.eqb k0 k) eqn:E; [discriminate|].
    intros Hnone. rewrite IH by exact Hnone.
    apply get_set_other. now apply String.eqb_neq.
Qed.

(** A key of the source takes the value of the source, whatever the
    target held. *)
Lemma get_spread_source (source : t V) : forall (target : t V) k v,
  NoDup (keys source) -> get source k = Some v ->
  get (spread target source) k = Some v.
Proof.
  unfold spread.
  induction source as [|[k0 v0] source IH]; intros target k v Hnd; simpl.
  - discriminate.
  - inversion Hnd as [|? ? Hnotin Hrest]; subst.
    destruct (String.eqb k0 k) eqn:E.
    + apply String.eqb_eq in E; subst k0. intros [= ->].
      change (get (spread (set target k v) source) k = Some v).
      rewrite get_spread_target by now apply get_None_keys.
      apply get_set_same.
    + now apply IH.
Qed.
End Facts.
End JsObjectFacts.

(** ** The script *)

Section ScriptFacts.
Import Script.

(** A loop whose body constructs one stack per element adds exactly
    these stacks, in order, and completes. *)
Lemma forEach_construct {A} (g : A -> Stack) (f : A -> M unit) :
  (forall x, f x = construct (g x)) ->
  forall xs app,
    forEach xs f app = ({| stacks := stacks app ++ map g xs |}, Normal tt).
Proof.
  intros Hf xs.
  induction xs as [|x xs IH]; intros app; simpl.
  - unfold ret. rewrite app_nil_r. now destruct app.
  - unfold bind. rewrite Hf. unfold construct at 1.
    rewrite IH. simpl. now rewrite <- app_assoc.
Qed.

Variable tryGetContext : string -> ContextValue.
Variable CDK_DEFAULT_ACCOUNT : option string.

Local Abbreviation environmentName :=
  (orDefault (tryGetContext "environment") "dev").
Local Abbreviation stackType :=
  (orDefault (tryGetContext "stackType") "high-level").

(** The environment is an entry of the table and the stack type is one
    of the two: one stack per region, in the order of the table. *)
Lemma run_resolved ec :
  JsObject.get environments environmentName = Some ec ->
  includes ["high-level"; "cfn"] stackType = true ->
  run tryGetContext CDK_DEFAULT_ACCOUNT =
    ({| stacks := map (stackOf stackType CDK_DEFAULT_ACCOUNT ec)
                    (JsObject.values (regions ec)) |},
     Normal tt).
Proof.
  intros Hget Hinc. unfold run, main. cbv zeta.
  unfold JsObject.get_property. rewrite Hget, Hinc.
  unfold when, bind, ret, throw.
  cbn [negb JsObject.truthy]. cbv beta iota.
  rewrite (forEach_construct (stackOf stackType CDK_DEFAULT_ACCOUNT ec)).
  - reflexivity.
  - intros rc. unfold stackOf.
    now destruct (String.eqb stackType "cfn").
Qed.

(** The environment is neither an entry of the table nor inherited. *)
Lemma run_not_found :
  JsObject.get environments environmentName = None ->
  JsObject.inherited environmentName = false ->
  run tryGetContext CDK_DEFAULT_ACCOUNT =
    (newApp, Throw (EnvironmentNotFound environmentName)).
Proof.
  intros Hget Hinh. unfold run, main. cbv zeta.
  unfold JsObject.get_property. now rewrite Hget, Hinh.
Qed.

(** The environment passes the test but the stack type does not. *)
Lemma run_not_supported :
  JsObject.truthy (JsObject.get_property environments environmentName) = true ->
  includes ["high-level"; "cfn"] stackType = false ->
  run tryGetContext CDK_DEFAULT_ACCOUNT =
    (newApp, Throw (StackTypeNotSupported stackType)).
Proof.
  intros Htruthy Hinc. unfold run, main. cbv zeta.
  now rewrite Htruthy, Hinc.
Qed.

(** The environment names a member of [Object.prototype]: it passes the
    test, and reading its regions throws. *)
Lemma run_inherited :
  JsObject.get environments environmentName = None ->
  JsObject.inherited environmentName = true ->
  includes ["high-level"; "cfn"] stackType = true ->
  run tryGetContext CDK_DEFAULT_ACCOUNT =
    (newApp, Throw (TypeError "Cannot convert undefined or null to object")).
Proof.
  intros Hget Hinh Hinc. unfold run, main. cbv zeta.
  unfold JsObject.get_property. now rewrite Hget, Hinh, Hinc.
Qed.

(** The four ways a run can go. *)
Lemma run_cases :
  (exists ec,
     JsObject.get environments environmentName = Some ec
     /\ includes ["high-level"; "cfn"] stackType = true
     /\ run tryGetContext CDK_DEFAULT_ACCOUNT =
          ({| stacks := map (stackOf stackType CDK_DEFAULT_ACCOUNT ec)
                          (JsObject.values (regions ec)) |},
           Normal tt))
  \/ (JsObject.get environments environmentName = None
      /\ JsObject.inherited environmentName = false
      /\ run tryGetContext CDK_DEFAULT_ACCOUNT =
           (newApp, Throw (EnvironmentNotFound environmentName)))
  \/ (includes ["high-level"; "cfn"] stackType = false
      /\ run tryGetContext CDK_DEFAULT_ACCOUNT =
           (newApp, Throw (StackTypeNotSupported stackType)))
  \/ (JsObject.get environments environmentName = None
      /\ JsObject.inherited environmentName = true
      /\ run tryGetContext CDK_DEFAULT_ACCOUNT =
           (newApp,
            Throw (TypeError "Cannot convert undefined or null to object"))).
Proof.
  destruct (JsObject.get environments environmentName) as [ec|] eqn:Hget;
    [|destruct (JsObject.inherited environmentName) eqn:Hinh];
    destruct (includes ["high-level"; "cfn"] stackType) eqn:Hinc.
  - left. exists ec. auto using run_resolved.
  - right; right; left. split; [reflexivity|].
    apply run_not_supported; [|exact Hinc].
    unfold JsObject.get_property. now rewrite Hget.
  - right; right; right. auto using run_inherited.
  - right; right; left. split; [reflexivity|].
    apply run_not_supported; [|exact Hinc].
    unfold JsObject.get_property. now rewrite Hget, Hinh.
  - right; left. auto using run_not_found.
  - right; left. auto using run_not_found.
Qed.

(** A run that throws has constructed nothing. *)
Lemma run_throw_newApp app e :
  run tryGetContext CDK_DEFAULT_ACCOUNT = (app, Throw e) -> app = newApp.
Proof.
  destruct run_cases as
    [(ec & _ & _ & ->)|[(_ & _ & ->)|[(_ & ->)|(_ & _ & ->)]]];
    congruence.
Qed.

(** A run that completes has resolved an entry of the table and built its
    stacks. *)
Lemma run_normal_inv app :
  run tryGetContext CDK_DEFAULT_ACCOUNT = (app, Normal tt) ->
  exists ec,
    JsObject.get environments environmentName = Some ec
    /\ includes ["high-level"; "cfn"] stackType = true
    /\ app = {| stacks := map (stackOf stackType CDK_DEFAULT_ACCOUNT ec)
                            (JsObject.values (regions ec)) |}.
Proof.
  destruct run_cases as
    [(ec & Hget & Hinc & ->)|[(_ & _ & ->)|[(_ & ->)|(_ & _ & ->)]]];
    try discriminate.
  intros [= <-]. now exists ec.
Qed.
End ScriptFacts.

(** [value || fallback] on a non-empty string is the string. *)
Lemma orDefault_nonempty s fallback :
  s <> "" -> orDefault (Some s) fallback = s.
Proof.
  intros Hne. unfold orDefault.
  apply String.eqb_neq in Hne. now rewrite Hne.
Qed.

(** The keys of the table. *)
Lemma environments_keys :
  JsObject.keys environments = ["local"; "dev"; "qa"; "prod"].
Proof. reflexivity. Qed.


(** ** The table *)

(** Case analysis on a membership in a literal list of pairs. *)
Ltac entry_cases H :=
  simpl in H;
  repeat (destruct H as [H|H]; [injection H as <- <-|]);
  [..|contradiction].

Lemma devConfig_in_table : JsObject.get environments "dev" = Some devConfig.
Proof. reflexivity. Qed.

(** C5. Every environment of the table (local, dev, qa, prod) has
    [minCapacity <= desiredCount <= maxCapacity]. *)
Theorem environments_capacity_bounds name ec :
  JsObject.get environments name = Some ec ->
  minCapacity ec <= desiredCount ec <= maxCapacity ec.
Proof.
  intros Hget. apply JsObjectFacts.get_In in Hget.
  entry_cases Hget; simpl; lia.
Qed.

Lemma environments_capacity_bounds_witness :
  minCapacity devConfig <= desiredCount devConfig <= maxCapacity devConfig.
Proof.
  apply (environments_capacity_bounds "dev" devConfig). reflexivity.
Defined.

(** C6. For every region of every environment of the table, the region
    encoded in the certificate ARN (its fourth colon-separated component)
    is the region of the entry. *)
Theorem certificate_region_matches ec rc :
  In ec (JsObject.values environments) ->
  In rc (JsObject.values (regions ec)) ->
  arnRegion (certificateArn rc) = Some (region rc).
Proof.
  intros Hec Hrc. simpl in Hec.
  repeat (destruct Hec as [<-|Hec]; [|]); [..|contradiction];
    simpl in Hrc;
    repeat (destruct Hrc as [<-|Hrc]; [|]); try contradiction;
    reflexivity.
Qed.

Lemma certificate_region_matches_witness :
  arnRegion (certificateArn devRegion) = Some "us-east-1".
Proof.
  apply (certificate_region_matches devConfig devRegion).
  - simpl. right. left. reflexivity.
  - simpl. left. reflexivity.
Defined.


(** ** The container environment *)

Lemma systemVariables_literal (e r : string) :
  JsObject.literal [("ENVIRONMENT", e); ("REGION", r)]
  = [("ENVIRONMENT", e); ("REGION", r)].
Proof. reflexivity. Qed.

(** C1 (amended). For every configuration and region, whatever the custom
    variables: the merged object has each key once; its keys are
    ENVIRONMENT, REGION and the custom keys; a custom variable keeps its
    value, also when it is named ENVIRONMENT or REGION; and a system key
    the custom variables do not define is bound to the environment name,
    respectively the region.  For every environment of the table and each
    of its regions the custom variables define neither system key, so
    ENVIRONMENT is the name of the entry and REGION the name of the
    region, and the CFN stack passes the same pairs. *)
Theorem containerEnvironment_merge :
  (forall ec rc,
     NoDup (JsObject.keys (containerEnvironmentVariables ec)) ->
     NoDup (JsObject.keys (containerEnvironmentObject ec rc))
     /\ (forall k,
           In k (JsObject.keys (containerEnvironmentObject ec rc))
           <-> k = "ENVIRONMENT" \/ k = "REGION"
               \/ In k (JsObject.keys (containerEnvironmentVariables ec)))
     /\ (forall k v,
           JsObject.get (containerEnvironmentVariables ec) k = Some v ->
           JsObject.get (containerEnvironmentObject ec rc) k = Some v)
     /\ (JsObject.get (containerEnvironmentVariables ec) "ENVIRONMENT" = None ->
         JsObject.get (containerEnvironmentObject ec rc) "ENVIRONMENT"
         = Some (environment ec))
     /\ (JsObject.get (containerEnvironmentVariables ec) "REGION" = None ->
         JsObject.get (containerEnvironmentObject ec rc) "REGION"
         = Some (region rc)))
  /\ (forall name ec key rc,
        JsObject.get environments name = Some ec ->
        JsObject.get (regions ec) key = Some rc ->
        JsObject.get (containerEnvironmentVariables ec) "ENVIRONMENT" = None
        /\ JsObject.get (containerEnvironmentVariables ec) "REGION" = None
        /\ JsObject.get (containerEnvironmentObject ec rc) "ENVIRONMENT"
           = Some name
        /\ JsObject.get (containerEnvironmentObject ec rc) "REGION"
           = Some key
        /\ containerEnvironmentArray ec rc
           = JsObject.entries (containerEnvironmentObject ec rc)).
Proof.
  split.
  - intros ec rc Hnd. unfold containerEnvironmentObject.
    rewrite systemVariables_literal.
    repeat split.
    + apply JsObjectFacts.NoDup_keys_spread. simpl.
      repeat constructor; simpl; intuition discriminate.
    + rewrite JsObjectFacts.keys_spread. simpl. intuition.
    + rewrite JsObjectFacts.keys_spread. simpl. intuition.
    + intros k v. now apply JsObjectFacts.get_spread_source.
    + intros Hnone. now rewrite JsObjectFacts.get_spread_target.
    + intros Hnone. now rewrite JsObjectFacts.get_spread_target.
  - intros name ec key rc Hec Hrc.
    apply JsObjectFacts.get_In in Hec. entry_cases Hec;
      apply JsObjectFacts.get_In in Hrc; entry_cases Hrc;
      repeat split; reflexivity.
Qed.

Lemma containerEnvironment_merge_witness :
  JsObject.get (containerEnvironmentObject overridingConfig devRegion)
    "ENVIRONMENT" = Some "prod"
  /\ JsObject.get (containerEnvironmentObject overridingConfig devRegion)
       "REGION" = Some "us-east-1"
  /\ JsObject.get (containerEnvironmentObject devConfig devRegion)
       "ENVIRONMENT" = Some "dev".
Proof.
  destruct containerEnvironment_merge as [Hmerge Htable].
  assert (Hnd : NoDup (JsObject.keys
                         (containerEnvironmentVariables overridingConfig))).
  { simpl. repeat constructor; simpl; intuition discriminate. }
  destruct (Hmerge overridingConfig devRegion Hnd)
    as (_ & _ & Hcustom & _ & Hregion).
  split; [|split].
  - apply Hcustom. reflexivity.
  - apply Hregion. reflexivity.
  - apply (Htable "dev" devConfig "us-east-1" devRegion); reflexivity.
Defined.

(** C1 as stated fails where the custom variables name a system key: the
    environment is [dev], and the container of either high-level stack
    gets ENVIRONMENT = prod. *)
Lemma containerEnvironment_system_key_overridden :
  environment overridingConfig = "dev"
  /\ JsObject.get (containerEnvironmentVariables overridingConfig)
       "ENVIRONMENT" = Some "prod"
  /\ containerEnvironment
       (EcsServiceStack "mcp-gw-dev-us-east-1"
          (propsOf overridingConfig devRegion))
     = [("ENVIRONMENT", "prod"); ("REGION", "us-east-1");
        ("LOG_LEVEL", "debug")]
  /\ containerEnvironment
       (SimpleEcsServiceStack "mcp-gw-dev-simple-us-east-1"
          (propsOf overridingConfig devRegion))
     = [("ENVIRONMENT", "prod"); ("REGION", "us-east-1");
        ("LOG_LEVEL", "debug")]
  /\ JsObject.get
       (containerEnvironmentObject overridingConfig devRegion) "ENVIRONMENT"
     <> Some (environment overridingConfig).
Proof. repeat split; try reflexivity. discriminate. Qed.

(** ** Auto-scaling *)





(** ** Resolution *)

Lemma includes_stackTypes t :
  includes ["high-level"; "cfn"] t = true <-> t = "high-level" \/ t = "cfn".
Proof.
  unfold includes. simpl. rewrite !orb_true_iff, !String.eqb_eq.
  intuition discriminate.
Qed.


(** C2 (amended). For every non-empty environment name that is neither a
    key of the table nor the name of a member inherited from
    [Object.prototype], whatever the stack type, the run throws the error
    "Environment '<name>' not found in configuration" and has constructed
    no stack. *)
Theorem unknown_environment_not_found tryGetContext account name :
  tryGetContext "environment" = Some name ->
  name <> "" ->
  JsObject.get environments name = None ->
  JsObject.inherited name = false ->
  run tryGetContext account
  = (newApp, Script.Throw (EnvironmentNotFound name))
  /\ message (EnvironmentNotFound name)
     = "Environment '" ++ name ++ "' not found in configuration".
Proof.
  intros Hctx Hne Hget Hinh. split; [|reflexivity].
  pose proof (run_not_found tryGetContext account) as Hrun.
  rewrite Hctx, (orDefault_nonempty name "dev" Hne) in Hrun. auto.
Qed.

Lemma unknown_environment_not_found_witness :
  run (contextOf [("environment", "nonexistent")]) None
  = (newApp, Script.Throw (EnvironmentNotFound "nonexistent"))
  /\ message (EnvironmentNotFound "nonexistent")
     = "Environment 'nonexistent' not found in configuration".
Proof.
  apply (unknown_environment_not_found
           (contextOf [("environment", "nonexistent")]) None "nonexistent");
    [reflexivity | discriminate | reflexivity | reflexivity].
Defined.

(** C2 as stated fails at the empty name, which is not a key of the table:
    it is taken as absent, and the run builds the [dev] stack.  (A name
    inherited from [Object.prototype], such as [constructor], is not a key
    either; there the run throws a [TypeError], not the not-found
    error.) *)
Lemma empty_environment_resolves_to_dev :
  JsObject.get environments "" = None
  /\ run (contextOf [("environment", "")]) None
     = ({| stacks := [stackOf "high-level" None devConfig devRegion] |},
        Script.Normal tt)
  /\ JsObject.get environments "constructor" = None
  /\ run (contextOf [("environment", "constructor")]) None
     = (newApp,
        Script.Throw (TypeError "Cannot convert undefined or null to object")).
Proof. repeat split; reflexivity. Qed.




(** C4. A run that throws, for whatever reason, has constructed no
    stack. *)
Theorem failed_run_builds_nothing tryGetContext account app e :
  run tryGetContext account = (app, Script.Throw e) ->
  stacks app = [].
Proof.
  intros Hrun. apply run_throw_newApp in Hrun. now subst app.
Qed.

Lemma failed_run_builds_nothing_witness :
  stacks (fst (run (contextOf [("environment", "qa");
                               ("stackType", "bogus-mode")]) None)) = [].
Proof.
  apply (failed_run_builds_nothing
           (contextOf [("environment", "qa"); ("stackType", "bogus-mode")])
           None _ (StackTypeNotSupported "bogus-mode")).
  reflexivity.
Defined.


(** ** The deploy script *)

Section DeployShFacts.
Import DeploySh.

Variable tool : list string -> Z.
Variable name : string.
Variable argv : list string.

Local Abbreviation ENVIRONMENT := (positional argv 1).
Local Abbreviation ACTION := (orElse (positional argv 2) "deploy").
Local Abbreviation STACK_TYPE := (orElse (positional argv 3) "high-level").

(** A string outside a literal list differs from each member. *)
Ltac outside H :=
  simpl in H;
  repeat match type of H with
         | ~ (?x = ?y \/ _) =>
             let E := fresh "E" in
             assert (E : String.eqb y x = false)
               by (apply String.eqb_neq; intros ->; apply H; now left);
             rewrite ?E;
             assert (H' : ~ _) by (intros H'; apply H; right; exact H');
             clear H; rename H' into H
         end.

(** An accepted environment, action and stack type: the script runs the
    tool once, on the action and the environment given, and ends with the
    status of the tool. *)
Lemma deploy_sh_runs :
  In ENVIRONMENT environmentsAccepted ->
  In ACTION actionsAccepted ->
  In STACK_TYPE stackTypesAccepted ->
  exists command,
    executed (deploy_sh tool name argv) = [command]
    /\ status (deploy_sh tool name argv) = tool command
    /\ firstn 3 command = ["npx"; "cdk"; ACTION]
    /\ In ("environment=" ++ ENVIRONMENT) command
    /\ (In "stackType=cfn" command <-> STACK_TYPE = "cfn").
Proof.
  unfold deploy_sh. cbv zeta.
  generalize ENVIRONMENT ACTION STACK_TYPE. intros e a t.
  unfold environmentsAccepted, actionsAccepted, stackTypesAccepted. simpl.
  intros [<-|[<-|[<-|[]]]] [<-|[<-|[<-|[<-|[]]]]] [<-|[<-|[]]]; simpl;
    eexists; (split; [reflexivity|]); (split; [reflexivity|]);
    (split; [reflexivity|]); simpl; (split; [tauto|]);
    (split;
     [ intros H; decompose [or] H;
       first [reflexivity | discriminate | contradiction]
     | intros H; first [discriminate H | tauto] ]).
Qed.

(** Anything else: the script ends with status 1 without running the
    tool. *)
Lemma deploy_sh_rejects :
  ~ (In ENVIRONMENT environmentsAccepted
     /\ In ACTION actionsAccepted
     /\ In STACK_TYPE stackTypesAccepted) ->
  executed (deploy_sh tool name argv) = []
  /\ status (deploy_sh tool name argv) = 1.
Proof.
  unfold deploy_sh. cbv zeta.
  generalize ENVIRONMENT ACTION STACK_TYPE. intros e a t Hnot.
  destruct (String.eqb e ""); [now split|].
  destruct (in_dec string_dec e environmentsAccepted) as [He|He].
  - destruct (in_dec string_dec t stackTypesAccepted) as [Ht|Ht].
    + assert (Ha : ~ In a actionsAccepted) by tauto.
      unfold environmentsAccepted, stackTypesAccepted in *. simpl in He, Ht.
      outside Ha.
      destruct He as [<-|[<-|[<-|[]]]]; destruct Ht as [<-|[<-|[]]];
        simpl; rewrite ?E, ?E0, ?E1, ?E2; now split.
    + unfold environmentsAccepted in He. simpl in He.
      outside Ht.
      destruct He as [<-|[<-|[<-|[]]]]; simpl; rewrite ?E, ?E0; now split.
  - outside He. rewrite ?E, ?E0, ?E1. now split.
Qed.
End DeployShFacts.

(** C9 (amended). The script accepts every action of deploy, diff,
    destroy, synth (deploy when omitted) for every environment of dev, qa,
    prod, with stack type high-level (also when omitted) or cfn: it then
    runs [npx cdk <action>] once with [environment=<environment>] and ends
    with the status of that command.  For any other arguments, the
    environment [local] included, it ends with status 1 without running
    the tool.  So its status is non-zero exactly when the environment, the
    action or the stack type is not accepted, or the tool it ran ended
    non-zero. *)
Theorem deploy_sh_dispatch tool name argv :
  (In (DeploySh.positional argv 1) DeploySh.environmentsAccepted ->
   In (DeploySh.orElse (DeploySh.positional argv 2) "deploy")
     DeploySh.actionsAccepted ->
   In (DeploySh.orElse (DeploySh.positional argv 3) "high-level")
     DeploySh.stackTypesAccepted ->
   exists command,
     DeploySh.executed (DeploySh.deploy_sh tool name argv) = [command]
     /\ DeploySh.status (DeploySh.deploy_sh tool name argv) = tool command
     /\ firstn 3 command
        = ["npx"; "cdk"; DeploySh.orElse (DeploySh.positional argv 2) "deploy"]
     /\ In ("environment=" ++ DeploySh.positional argv 1) command)
  /\ (~ (In (DeploySh.positional argv 1) DeploySh.environmentsAccepted
         /\ In (DeploySh.orElse (DeploySh.positional argv 2) "deploy")
              DeploySh.actionsAccepted
         /\ In (DeploySh.orElse (DeploySh.positional argv 3) "high-level")
              DeploySh.stackTypesAccepted) ->
      DeploySh.executed (DeploySh.deploy_sh tool name argv) = []
      /\ DeploySh.status (DeploySh.deploy_sh tool name argv) = 1)
  /\ (DeploySh.status (DeploySh.deploy_sh tool name argv) <> 0
      <-> ~ In (DeploySh.positional argv 1) DeploySh.environmentsAccepted
          \/ ~ In (DeploySh.orElse (DeploySh.positional argv 2) "deploy")
                 DeploySh.actionsAccepted
          \/ ~ In (DeploySh.orElse (DeploySh.positional argv 3) "high-level")
                 DeploySh.stackTypesAccepted
          \/ exists command,
               DeploySh.executed (DeploySh.deploy_sh tool name argv)
               = [command]
               /\ tool command <> 0).
Proof.
  split; [|split].
  - intros He Ha Ht.
    destruct (deploy_sh_runs tool name argv He Ha Ht)
      as (command & H1 & H2 & H3 & H4 & _).
    now exists command.
  - apply deploy_sh_rejects.
  - assert (Hrejected :
      ~ (In (DeploySh.positional argv 1) DeploySh.environmentsAccepted
         /\ In (DeploySh.orElse (DeploySh.positional argv 2) "deploy")
              DeploySh.actionsAccepted
         /\ In (DeploySh.orElse (DeploySh.positional argv 3) "high-level")
              DeploySh.stackTypesAccepted) ->
      DeploySh.status (DeploySh.deploy_sh tool name argv) <> 0).
    { intros Hnot. destruct (deploy_sh_rejects tool name argv Hnot) as [_ ->].
      discriminate. }
    destruct (in_dec string_dec (DeploySh.positional argv 1)
                DeploySh.environmentsAccepted) as [He|He]; [|tauto].
    destruct (in_dec string_dec
                (DeploySh.orElse (DeploySh.positional argv 2) "deploy")
                DeploySh.actionsAccepted) as [Ha|Ha]; [|tauto].
    destruct (in_dec string_dec
                (DeploySh.orElse (DeploySh.positional argv 3) "high-level")
                DeploySh.stackTypesAccepted) as [Ht|Ht]; [|tauto].
    destruct (deploy_sh_runs tool name argv He Ha Ht)
      as (command & Hexec & Hstatus & _).
    rewrite Hstatus, Hexec. split.
    + intros Hnz. right; right; right. now exists command.
    + intros [H|[H|[H|(command' & [= <-] & Hnz)]]]; tauto.
Qed.

Lemma deploy_sh_dispatch_witness :
  DeploySh.status
    (DeploySh.deploy_sh (fun _ => 0) "./scripts/deploy.sh" ["qa"; "diff"; "cfn"])
  = 0
  /\ DeploySh.executed
       (DeploySh.deploy_sh (fun _ => 0) "./scripts/deploy.sh"
          ["qa"; "diff"; "cfn"])
     = [["npx"; "cdk"; "diff"; "-c"; "environment=qa"; "-c"; "stackType=cfn"]].
Proof.
  destruct (deploy_sh_dispatch (fun _ => 0) "./scripts/deploy.sh"
              ["qa"; "diff"; "cfn"]) as (Hruns & _ & _).
  destruct Hruns as (command & Hexec & Hstatus & _).
  - simpl. tauto.
  - simpl. tauto.
  - simpl. tauto.
  - split; [exact Hstatus | reflexivity].
Defined.

(** C9 as stated fails at the environment [local]: for each of the four
    actions the script prints "Error: Environment must be one of: dev, qa,
    prod" and ends with status 1 without running the tool, although the
    tool would have succeeded. *)
Lemma deploy_sh_rejects_local :
  Forall (fun action =>
            DeploySh.deploy_sh (fun _ => 0) "./scripts/deploy.sh"
              ["local"; action]
            = {| DeploySh.status := 1;
                 DeploySh.printed :=
                   ["Error: Environment must be one of: dev, qa, prod"];
                 DeploySh.executed := [] |})
    ["deploy"; "diff"; "destroy"; "synth"].
Proof. repeat constructor. Qed.

(** * Further properties of the app and the stacks *)

(** ** Strings *)

Lemma append_inv_head (p a b : string) : p ++ a = p ++ b -> a = b.
Proof.
  induction p as [|c p IH]; simpl; [auto|].
  intros [= H]. auto.
Qed.

(** ** Runs of the app *)

(** A name inherited from [Object.prototype] is neither empty nor a key of
    the table. *)
Lemma inherited_name_facts name :
  In name JsObject.object_prototype_properties ->
  name <> "" /\ JsObject.get environments name = None
  /\ JsObject.inherited name = true.
Proof.
  unfold JsObject.object_prototype_properties. simpl.
  intros H. decompose [or] H; subst;
    try contradiction; repeat split; discriminate.
Qed.

(** X1. An environment named like a member of [Object.prototype] passes the
    not-found test.  With a stack type the app accepts the run throws the
    [TypeError] of [Object.values(undefined)]; otherwise it throws the
    stack-type error.  Either way it has constructed nothing. *)
Theorem inherited_environment_throws tryGetContext account name :
  tryGetContext "environment" = Some name ->
  In name JsObject.object_prototype_properties ->
  (includes ["high-level"; "cfn"]
     (orDefault (tryGetContext "stackType") "high-level") = true ->
   run tryGetContext account
   = (newApp,
      Script.Throw (TypeError "Cannot convert undefined or null to object")))
  /\ (includes ["high-level"; "cfn"]
        (orDefault (tryGetContext "stackType") "high-level") = false ->
      run tryGetContext account
      = (newApp,
         Script.Throw
           (StackTypeNotSupported
              (orDefault (tryGetContext "stackType") "high-level")))).
Proof.
  intros Hctx Hin.
  destruct (inherited_name_facts name Hin) as (Hne & Hget & Hinh).
  pose proof (run_inherited tryGetContext account) as Htype.
  pose proof (run_not_supported tryGetContext account) as Hstack.
  rewrite Hctx, (orDefault_nonempty name "dev" Hne) in Htype, Hstack.
  split.
  - now apply Htype.
  - apply Hstack. unfold JsObject.get_property. now rewrite Hget, Hinh.
Qed.

Lemma inherited_environment_throws_witness :
  run (contextOf [("environment", "toString"); ("stackType", "cfn")]) None
  = (newApp,
     Script.Throw (TypeError "Cannot convert undefined or null to object")).
Proof.
  apply (inherited_environment_throws
           (contextOf [("environment", "toString"); ("stackType", "cfn")])
           None "toString").
  - reflexivity.
  - simpl. tauto.
  - reflexivity.
Defined.

(** X2. A run that completes has built exactly one stack per region of the
    resolved environment, in the order of the table: its id is
    [<appName>-<environment>-<region>], with [-cfn] appended for the stack
    type [cfn]; it is deployed to that region under the account of the
    process; and it is an [EcsServiceCfnStack] for [cfn] and an
    [EcsServiceStack] otherwise. *)
Theorem completed_run_stacks tryGetContext account app :
  run tryGetContext account = (app, Script.Normal tt) ->
  exists ec,
    JsObject.get environments (orDefault (tryGetContext "environment") "dev")
    = Some ec
    /\ map (fun s => (stackId s, stackEnv s, stackClass s)) (stacks app)
       = map (fun rc =>
                if String.eqb
                     (orDefault (tryGetContext "stackType") "high-level") "cfn"
                then (appName ec ++ "-" ++ environment ec ++ "-" ++ region rc
                      ++ "-cfn",
                      {| account := account; envRegion := region rc |},
                      EcsServiceCfnStackClass)
                else (appName ec ++ "-" ++ environment ec ++ "-" ++ region rc,
                      {| account := account; envRegion := region rc |},
                      EcsServiceStackClass))
           (JsObject.values (regions ec)).
Proof.
  intros Hrun. apply run_normal_inv in Hrun as (ec & Hget & _ & ->).
  exists ec. split; [exact Hget|]. simpl. rewrite map_map.
  apply map_ext. intros rc. unfold stackOf.
  destruct (String.eqb _ "cfn"); simpl; [reflexivity|].
  repeat f_equal.
  induction (region rc) as [|c r IH]; simpl; [reflexivity|now rewrite IH].
Qed.

Lemma completed_run_stacks_witness :
  exists ec,
    JsObject.get environments "prod" = Some ec
    /\ map (fun s => (stackId s, stackEnv s, stackClass s))
         (stacks (fst (run (contextOf [("environment", "prod");
                                       ("stackType", "cfn")]) (Some "123456789012"))))
       = [ ("mcp-gw-prod-us-east-1-cfn",
            {| account := Some "123456789012"; envRegion := "us-east-1" |},
            EcsServiceCfnStackClass);
           ("mcp-gw-prod-us-west-2-cfn",
            {| account := Some "123456789012"; envRegion := "us-west-2" |},
            EcsServiceCfnStackClass) ].
Proof.
  destruct (completed_run_stacks
              (contextOf [("environment", "prod"); ("stackType", "cfn")])
              (Some "123456789012")
              (fst (run (contextOf [("environment", "prod");
                                    ("stackType", "cfn")])
                      (Some "123456789012"))))
    as (ec & Hget & Hstacks); [reflexivity|].
  exists ec. split; [exact Hget|].
  rewrite Hstacks. injection Hget as <-. reflexivity.
Defined.



(** X3. No run constructs two stacks with the same id. *)
Theorem run_stack_ids_distinct tryGetContext account :
  NoDup (map stackId (stacks (fst (run tryGetContext account)))).
Proof.
  destruct (run tryGetContext account) as [app [[]|e]] eqn:Hrun; simpl.
  - apply run_normal_inv in Hrun as (ec & Hget & Hinc & ->). simpl.
    apply JsObjectFacts.get_In in Hget. apply includes_stackTypes in Hinc.
    generalize dependent (orDefault (tryGetContext "environment") "dev").
    generalize dependent (orDefault (tryGetContext "stackType") "high-level").
    intros t Ht name Hget.
    entry_cases Hget; destruct Ht as [-> | ->]; simpl;
      repeat constructor; simpl; intuition discriminate.
  - apply run_throw_newApp in Hrun. subst app. constructor.
Qed.






(** ** The container environment across stack classes *)

Section SpreadFacts.
Import JsObject.
Context {V : Type}.


End SpreadFacts.



(** X8. Where the custom variables do name a system key, the CFN stack lists
    the name twice, first with the system value and then with the custom
    one, while the object of the high-level stacks holds it once, with the
    custom value. *)
Theorem cfn_environment_keeps_both_entries id props name value :
  name = "ENVIRONMENT" \/ name = "REGION" ->
  NoDup (JsObject.keys
           (containerEnvironmentVariables (environmentConfig props))) ->
  JsObject.get (containerEnvironmentVariables (environmentConfig props)) name
  = Some value ->
  ~ NoDup (map fst (containerEnvironment (EcsServiceCfnStack id props)))
  /\ In (name, value) (containerEnvironment (EcsServiceCfnStack id props))
  /\ JsObject.get (containerEnvironment (EcsServiceCfnStack id props)) name
     = Some (if String.eqb name "ENVIRONMENT"
             then environment (environmentConfig props)
             else region (regionConfig props))
  /\ NoDup (map fst (containerEnvironment (EcsServiceStack id props)))
  /\ JsObject.get (containerEnvironment (EcsServiceStack id props)) name
     = Some value.
Proof.
  intros Hname Hnd Hget.
  assert (Hin : In (name, value)
                  (containerEnvironmentVariables (environmentConfig props)))
    by now apply JsObjectFacts.get_In.
  assert (Harray :
            containerEnvironment (EcsServiceCfnStack id props)
            = ([("ENVIRONMENT", environment (environmentConfig props));
                ("REGION", region (regionConfig props))]
               ++ containerEnvironmentVariables (environmentConfig props))%list).
  { simpl. unfold containerEnvironmentArray, JsObject.entries. simpl.
    do 2 f_equal.
    rewrite <- (map_id (containerEnvironmentVariables _)) at 2.
    apply map_ext. now intros [n v]. }
  rewrite Harray.
  assert (Hnodup :
            NoDup (JsObject.keys
                     (containerEnvironmentObject (environmentConfig props)
                        (regionConfig props)))).
  { unfold containerEnvironmentObject. rewrite systemVariables_literal.
    apply JsObjectFacts.NoDup_keys_spread. simpl.
    repeat constructor; simpl; intuition discriminate. }
  repeat split.
  - simpl. intros Hdup.
    apply (in_map fst) in Hin. simpl in Hin.
    inversion Hdup as [|? ? Hfirst Hrest]; subst.
    inversion Hrest as [|? ? Hsecond _]; subst.
    destruct Hname as [-> | ->].
    + apply Hfirst. now right.
    + exact (Hsecond Hin).
  - apply in_or_app. now right.
  - destruct Hname as [-> | ->]; reflexivity.
  - exact Hnodup.
  - simpl. unfold JsObject.entries, containerEnvironmentObject.
    now apply JsObjectFacts.get_spread_source.
Qed.

Lemma cfn_environment_keeps_both_entries_witness :
  map fst
    (containerEnvironment
       (EcsServiceCfnStack "mcp-gw-dev-us-east-1-cfn"
          (propsOf overridingConfig devRegion)))
  = ["ENVIRONMENT"; "REGION"; "LOG_LEVEL"; "ENVIRONMENT"]
  /\ JsObject.get
       (containerEnvironment
          (EcsServiceStack "mcp-gw-dev-us-east-1-cfn"
             (propsOf overridingConfig devRegion))) "ENVIRONMENT"
     = Some "prod".
Proof.
  split; [reflexivity|].
  apply (cfn_environment_keeps_both_entries "mcp-gw-dev-us-east-1-cfn"
           (propsOf overridingConfig devRegion) "ENVIRONMENT" "prod").
  - now left.
  - simpl. repeat constructor; simpl; intuition discriminate.
  - reflexivity.
Defined.

(** ** Resource names *)

(** Strip the common prefix of two names built by the naming scheme. *)
Ltac strip H :=
  repeat first
    [ apply append_inv_head in H
    | discriminate H
    | injection H as H
    | progress simpl in H ].

(** A string is not a proper extension of itself. *)
Ltac by_length H :=
  apply (f_equal String.length) in H; simpl in H; lia.

Lemma length_append (a b : string) :
  String.length (a ++ b) = (String.length a + String.length b)%nat.
Proof. induction a as [|c a IH]; simpl; [reflexivity|now rewrite IH]. Qed.

(** X9. The [EcsServiceStack], the [EcsServiceCfnStack] and the simple stack
    of one environment and region give each kind of resource a different
    name, and the app gives the stacks of its two stack types different
    ids: the flavours can be deployed side by side. *)
Theorem resource_names_differ_across_classes id id' id'' props account :
  Forall2 (fun n n' => n <> n')
    (resourceNames (EcsServiceStack id props))
    (resourceNames (EcsServiceCfnStack id' props))
  /\ Forall2 (fun n n' => n <> n')
       (resourceNames (EcsServiceStack id props))
       (resourceNames (SimpleEcsServiceStack id'' props))
  /\ Forall2 (fun n n' => n <> n')
       (resourceNames (EcsServiceCfnStack id' props))
       (resourceNames (SimpleEcsServiceStack id'' props))
  /\ stackId (stackOf "high-level" account (environmentConfig props)
                (regionConfig props))
     <> stackId (stackOf "cfn" account (environmentConfig props)
                   (regionConfig props)).
Proof.
  unfold resourceNames, resourceName.
  repeat split; repeat (apply Forall2_cons || apply Forall2_nil);
    simpl; unfold resourceName; intros H; strip H; by_length H.
Qed.

Lemma append_inv_tail (s a : string) : forall b, a ++ s = b ++ s -> a = b.
Proof.
  induction a as [|c a IH]; intros [|c' b] H; simpl in H.
  - reflexivity.
  - apply (f_equal String.length) in H. simpl in H.
    rewrite length_append in H. lia.
  - apply (f_equal String.length) in H. simpl in H.
    rewrite length_append in H. lia.
  - injection H as -> H. f_equal. now apply IH.
Qed.

(** X10. Stacks of one environment in regions of different names give each
    kind of resource a different name, for the four stack definitions, and
    the app gives them different ids. *)
Theorem resource_names_differ_across_regions
    ec rc rc' e e' id id' stackType account :
  region rc <> region rc' ->
  Forall (fun build : string -> StackProps -> Stack =>
            Forall2 (fun n n' => n <> n')
              (resourceNames
                 (build id {| env := e; environmentConfig := ec;
                              regionConfig := rc |}))
              (resourceNames
                 (build id' {| env := e'; environmentConfig := ec;
                               regionConfig := rc' |})))
    [ EcsServiceStack; EcsServiceCfnStack; SimpleEcsServiceStack;
      SimpleEcsServiceStack_pathRouting ]
  /\ stackId (stackOf stackType account ec rc)
     <> stackId (stackOf stackType account ec rc').
Proof.
  intros Hregion. split.
  - repeat (apply Forall_cons || apply Forall_nil);
      repeat (apply Forall2_cons || apply Forall2_nil);
      simpl; unfold resourceName; intros H; strip H; contradiction.
  - unfold stackOf. destruct (String.eqb stackType "cfn"); simpl;
      intros H; strip H; apply append_inv_tail in H; contradiction.
Qed.

Lemma resource_names_differ_across_regions_witness :
  stackId (stackOf "cfn" None devConfig devRegion)
  <> stackId
       (stackOf "cfn" None devConfig
          {| region := "us-west-2";
             vpcId := "vpc-dev-us-west-2-xxxxxxxxx";
             subnetIds := ["subnet-dev-us-west-2-xxxxxxxxx"];
             securityGroupIds := ["sg-dev-us-west-2-xxxxxxxxx"];
             certificateArn :=
               "arn:aws:acm:us-west-2:123456789012:certificate/dev-xxxxxxxxx";
             hostedZoneId := "Z1234567890123" |}).
Proof.
  apply (resource_names_differ_across_regions devConfig devRegion _
           {| account := None; envRegion := "us-east-1" |}
           {| account := None; envRegion := "us-west-2" |}
           "mcp-gw-dev-us-east-1-cfn" "mcp-gw-dev-us-west-2-cfn" "cfn" None).
  discriminate.
Defined.

(** ** The deploy script and the app *)



(** X12. Whatever its arguments, every word of every command the deploy script
    runs is plain: the unquoted expansions of its command lines are never
    split into several words, dropped, or expanded as patterns. *)
Theorem deploy_sh_words_plain tool name argv command :
  In command (DeploySh.executed (DeploySh.deploy_sh tool name argv)) ->
  forallb plainWord command = true.
Proof.
  destruct (in_dec string_dec (DeploySh.positional argv 1)
              DeploySh.environmentsAccepted) as [He|He];
    [destruct (in_dec string_dec
                 (DeploySh.orElse (DeploySh.positional argv 2) "deploy")
                 DeploySh.actionsAccepted) as [Ha|Ha];
     [destruct (in_dec string_dec
                  (DeploySh.orElse (DeploySh.positional argv 3) "high-level")
                  DeploySh.stackTypesAccepted) as [Ht|Ht]|]|].
  - revert He Ha Ht. unfold DeploySh.deploy_sh. cbv zeta.
    generalize (DeploySh.positional argv 1)
      (DeploySh.orElse (DeploySh.positional argv 2) "deploy")
      (DeploySh.orElse (DeploySh.positional argv 3) "high-level").
    intros e a t.
    unfold DeploySh.environmentsAccepted, DeploySh.actionsAccepted,
      DeploySh.stackTypesAccepted. simpl.
    intros [<-|[<-|[<-|[]]]] [<-|[<-|[<-|[<-|[]]]]] [<-|[<-|[]]]; simpl;
      (intros [<-|[]]); reflexivity.
  - destruct (deploy_sh_rejects tool name argv) as [-> _]; [tauto|].
    intros [].
  - destruct (deploy_sh_rejects tool name argv) as [-> _]; [tauto|].
    intros [].
  - destruct (deploy_sh_rejects tool name argv) as [-> _]; [tauto|].
    intros [].
Qed.

Lemma deploy_sh_words_plain_witness :
  forallb plainWord
    ["npx"; "cdk"; "destroy"; "--all"; "-c"; "environment=qa"; "--force"]
  = true.
Proof.
  apply (deploy_sh_words_plain (fun _ => 0) "./scripts/deploy.sh"
           ["qa"; "destroy"]).
  simpl. left. reflexivity.
Defined.

(** ** The LocalStack script: waiting *)

Section WaitFacts.
Import LocalstackSh.
Local Open Scope list_scope.
Variable statusOf : nat -> Z.

Lemma ranCount_app (t d : list event) :
  ranCount (t ++ d) = (ranCount t + ranCount d)%nat.
Proof.
  induction t as [|[c|l] t IH]; simpl; [reflexivity| |]; now rewrite IH.
Qed.

Lemma commands_app (t d : list event) :
  commands (t ++ d) = commands t ++ commands d.
Proof.
  induction t as [|[c|l] t IH]; simpl; [reflexivity| |]; now rewrite IH.
Qed.

Lemma occurrences_app command (t d : list event) :
  occurrences command (t ++ d)
  = (occurrences command t + occurrences command d)%nat.
Proof.
  unfold occurrences. now rewrite commands_app, filter_app, length_app.
Qed.

Lemma wait_loop_end attempt t :
  wait_loop statusOf 0 attempt t
  = ((t ++ [Printed "LocalStack failed to start within expected time"])%list,
     Done 1).
Proof. reflexivity. Qed.

Lemma wait_loop_step_ready remaining attempt t :
  statusOf (ranCount t) = 0 ->
  wait_loop statusOf (S remaining) attempt t
  = ((t ++ [Ran healthCheck; Printed "LocalStack is ready!"])%list, Done 0).
Proof.
  intros Hok. cbn [wait_loop].
  unfold bind, check_localstack, bind, try, ret, echo.
  rewrite Hok. simpl. now rewrite <- app_assoc.
Qed.

Lemma wait_loop_step_failed remaining attempt t :
  statusOf (ranCount t) <> 0 ->
  statusOf (S (ranCount t)) = 0 ->
  wait_loop statusOf (S remaining) attempt t
  = wait_loop statusOf remaining (S attempt) (t ++ failedAttempt attempt).
Proof.
  intros Hfail Hsleep. cbn [wait_loop].
  unfold bind, check_localstack, checked, bind, try, ret, echo.
  apply Z.eqb_neq in Hfail. rewrite Hfail. cbn [Z.eqb].
  rewrite !ranCount_app. cbn [ranCount].
  replace (ranCount t + 1 + 0)%nat with (S (ranCount t)) by lia.
  rewrite Hsleep. cbn [Z.eqb].
  unfold failedAttempt. now rewrite <- !app_assoc.
Qed.

Lemma wait_loop_step_aborted remaining attempt t :
  statusOf (ranCount t) <> 0 ->
  statusOf (S (ranCount t)) <> 0 ->
  wait_loop statusOf (S remaining) attempt t
  = ((t ++ failedAttempt attempt)%list, Exited (statusOf (S (ranCount t)))).
Proof.
  intros Hfail Hsleep. cbn [wait_loop].
  unfold bind, check_localstack, checked, bind, try, ret, echo, exit.
  apply Z.eqb_neq in Hfail. rewrite Hfail. cbn [Z.eqb].
  rewrite !ranCount_app. cbn [ranCount].
  replace (ranCount t + 1 + 0)%nat with (S (ranCount t)) by lia.
  apply Z.eqb_neq in Hsleep. rewrite Hsleep.
  unfold failedAttempt. now rewrite <- !app_assoc.
Qed.

Lemma ranCount_failedAttempt t attempt :
  ranCount (t ++ failedAttempt attempt) = (ranCount t + 2)%nat.
Proof. rewrite ranCount_app. reflexivity. Qed.

Lemma wait_loop_ready k : forall remaining attempt t,
  (k < remaining)%nat ->
  (forall j, (j < k)%nat ->
     statusOf (ranCount t + 2 * j) <> 0
     /\ statusOf (ranCount t + 2 * j + 1) = 0) ->
  statusOf (ranCount t + 2 * k) = 0 ->
  wait_loop statusOf remaining attempt t
  = ((t ++ flat_map failedAttempt (seq attempt k)
        ++ [Ran healthCheck; Printed "LocalStack is ready!"])%list,
     Done 0).
Proof.
  induction k as [|k IH]; intros remaining attempt t Hlt Hfail Hok;
    (destruct remaining as [|remaining]; [lia|]).
  - apply wait_loop_step_ready.
    now replace (ranCount t + 2 * 0)%nat with (ranCount t) in Hok by lia.
  - destruct (Hfail 0%nat ltac:(lia)) as [Hpoll Hsleep].
    replace (ranCount t + 2 * 0)%nat with (ranCount t) in Hpoll by lia.
    replace (ranCount t + 2 * 0 + 1)%nat with (S (ranCount t)) in Hsleep
      by lia.
    rewrite (wait_loop_step_failed _ _ _ Hpoll Hsleep).
    rewrite IH.
    + simpl. now rewrite <- !app_assoc.
    + lia.
    + intros j Hj. rewrite ranCount_failedAttempt.
      destruct (Hfail (S j) ltac:(lia)) as [H1 H2].
      split.
      * now replace (ranCount t + 2 + 2 * j)%nat
          with (ranCount t + 2 * S j)%nat by lia.
      * now replace (ranCount t + 2 + 2 * j + 1)%nat
          with (ranCount t + 2 * S j + 1)%nat by lia.
    + rewrite ranCount_failedAttempt.
      now replace (ranCount t + 2 + 2 * k)%nat
        with (ranCount t + 2 * S k)%nat by lia.
Qed.

Lemma wait_loop_timeout remaining : forall attempt t,
  (forall j, (j < remaining)%nat ->
     statusOf (ranCount t + 2 * j) <> 0
     /\ statusOf (ranCount t + 2 * j + 1) = 0) ->
  wait_loop statusOf remaining attempt t
  = ((t ++ flat_map failedAttempt (seq attempt remaining)
        ++ [Printed "LocalStack failed to start within expected time"])%list,
     Done 1).
Proof.
  induction remaining as [|remaining IH]; intros attempt t Hfail.
  - apply wait_loop_end.
  - destruct (Hfail 0%nat ltac:(lia)) as [Hpoll Hsleep].
    replace (ranCount t + 2 * 0)%nat with (ranCount t) in Hpoll by lia.
    replace (ranCount t + 2 * 0 + 1)%nat with (S (ranCount t)) in Hsleep
      by lia.
    rewrite (wait_loop_step_failed _ _ _ Hpoll Hsleep).
    rewrite IH.
    + simpl. now rewrite <- !app_assoc.
    + intros j Hj. rewrite ranCount_failedAttempt.
      destruct (Hfail (S j) ltac:(lia)) as [H1 H2].
      split.
      * now replace (ranCount t + 2 + 2 * j)%nat
          with (ranCount t + 2 * S j)%nat by lia.
      * now replace (ranCount t + 2 + 2 * j + 1)%nat
          with (ranCount t + 2 * S j + 1)%nat by lia.
Qed.
End WaitFacts.

(** X13. The first health check to succeed is the one of attempt [k + 1], for
    some [k < 30], and the sleeps before it succeed: the wait prints its
    line, makes [k] failed attempts, each a health check, the line
    "Attempt i/30: LocalStack not ready yet..." and [sleep 5], then the
    successful check, prints "LocalStack is ready!" and returns 0. *)
Theorem wait_for_localstack_ready statusOf t k :
  (k < 30)%nat ->
  (forall j, (j < k)%nat ->
     statusOf (LocalstackSh.ranCount t + 2 * j)%nat <> 0
     /\ statusOf (LocalstackSh.ranCount t + 2 * j + 1)%nat = 0) ->
  statusOf (LocalstackSh.ranCount t + 2 * k)%nat = 0 ->
  LocalstackSh.wait_for_localstack statusOf t
  = ((t ++ [LocalstackSh.Printed "Waiting for LocalStack to be ready..."]
        ++ flat_map LocalstackSh.failedAttempt (seq 1 k)
        ++ [LocalstackSh.Ran LocalstackSh.healthCheck;
            LocalstackSh.Printed "LocalStack is ready!"])%list,
     LocalstackSh.Done 0).
Proof.
  intros Hk Hfail Hok.
  unfold LocalstackSh.wait_for_localstack, LocalstackSh.bind,
    LocalstackSh.echo.
  rewrite (wait_loop_ready statusOf k).
  - now rewrite <- app_assoc.
  - unfold LocalstackSh.max_attempts. lia.
  - intros j Hj. rewrite ranCount_app. cbn [LocalstackSh.ranCount].
    rewrite Nat.add_0_r. auto.
  - rewrite ranCount_app. cbn [LocalstackSh.ranCount].
    now rewrite Nat.add_0_r.
Qed.

Lemma wait_for_localstack_ready_witness :
  LocalstackSh.wait_for_localstack
    (fun n => if Nat.even n && Nat.ltb n 4 then 1 else 0) []
  = ([ LocalstackSh.Printed "Waiting for LocalStack to be ready...";
       LocalstackSh.Ran LocalstackSh.healthCheck;
       LocalstackSh.Printed "Attempt 1/30: LocalStack not ready yet...";
       LocalstackSh.Ran ["sleep"; "5"];
       LocalstackSh.Ran LocalstackSh.healthCheck;
       LocalstackSh.Printed "Attempt 2/30: LocalStack not ready yet...";
       LocalstackSh.Ran ["sleep"; "5"];
       LocalstackSh.Ran LocalstackSh.healthCheck;
       LocalstackSh.Printed "LocalStack is ready!" ],
     LocalstackSh.Done 0).
Proof.
  apply (wait_for_localstack_ready
           (fun n => if Nat.even n && Nat.ltb n 4 then 1 else 0) [] 2).
  - lia.
  - intros [|[|j]] Hj; simpl; [split; [discriminate|reflexivity] ..|lia].
  - reflexivity.
Defined.

(** X14. All thirty health checks fail, and the sleeps succeed: the wait makes
    the thirty attempts, prints "LocalStack failed to start within
    expected time" and returns 1. *)
Theorem wait_for_localstack_timeout statusOf t :
  (forall j, (j < 30)%nat ->
     statusOf (LocalstackSh.ranCount t + 2 * j)%nat <> 0
     /\ statusOf (LocalstackSh.ranCount t + 2 * j + 1)%nat = 0) ->
  LocalstackSh.wait_for_localstack statusOf t
  = ((t ++ [LocalstackSh.Printed "Waiting for LocalStack to be ready..."]
        ++ flat_map LocalstackSh.failedAttempt (seq 1 30)
        ++ [LocalstackSh.Printed
              "LocalStack failed to start within expected time"])%list,
     LocalstackSh.Done 1)
  /\ LocalstackSh.occurrences ["sleep"; "5"]
       (fst (LocalstackSh.wait_for_localstack statusOf t))
     = (LocalstackSh.occurrences ["sleep"; "5"] t + 30)%nat.
Proof.
  intros Hfail.
  assert (Hrun :
    LocalstackSh.wait_for_localstack statusOf t
    = ((t ++ [LocalstackSh.Printed "Waiting for LocalStack to be ready..."]
          ++ flat_map LocalstackSh.failedAttempt (seq 1 30)
          ++ [LocalstackSh.Printed
                "LocalStack failed to start within expected time"])%list,
       LocalstackSh.Done 1)).
  { unfold LocalstackSh.wait_for_localstack, LocalstackSh.bind,
      LocalstackSh.echo.
    rewrite (wait_loop_timeout statusOf LocalstackSh.max_attempts).
    - now rewrite <- app_assoc.
    - intros j Hj. rewrite ranCount_app. cbn [LocalstackSh.ranCount].
      rewrite Nat.add_0_r. auto. }
  split; [exact Hrun|].
  rewrite Hrun. cbn [fst]. rewrite occurrences_app. f_equal.
Qed.

Lemma wait_for_localstack_timeout_witness :
  snd (LocalstackSh.wait_for_localstack
         (fun n => if Nat.even n then 1 else 0) [])
  = LocalstackSh.Done 1
  /\ LocalstackSh.occurrences ["sleep"; "5"]
       (fst (LocalstackSh.wait_for_localstack
               (fun n => if Nat.even n then 1 else 0) []))
     = 30%nat.
Proof.
  destruct (wait_for_localstack_timeout
              (fun n => if Nat.even n then 1 else 0) []) as [Hrun Hsleeps].
  - intros j _. simpl. split.
    + replace (j + (j + 0))%nat with (2 * j)%nat by lia.
      rewrite Nat.even_mul. discriminate.
    + replace (j + (j + 0) + 1)%nat with (1 + 2 * j)%nat by lia.
      now rewrite Nat.even_add_mul_2.
  - split; [now rewrite Hrun | exact Hsleeps].
Defined.

(** ** The LocalStack script: what a run adds to the trace *)

Section ShellLogic.
Import LocalstackSh.
Local Open Scope list_scope.
Variable statusOf : nat -> Z.

Lemma bounded_ret {A} (a : A) : bounded 0 0 (ret a).
Proof. intros t. exists []. simpl. now rewrite app_nil_r. Qed.

Lemma bounded_exit {A} status : bounded 0 0 (@exit A status).
Proof. intros t. exists []. simpl. now rewrite app_nil_r. Qed.

Lemma bounded_echo line : bounded 0 0 (echo line).
Proof. intros t. exists [Printed line]. simpl. auto. Qed.

Lemma bounded_try command :
  bounded (occurrences healthCheck [Ran command])
    (occurrences ["sleep"; "5"%string] [Ran command])
    (try statusOf command).
Proof. intros t. exists [Ran command]. simpl. auto. Qed.

Lemma bounded_bind {A B} p1 s1 p2 s2 (m : sh A) (k : A -> sh B) :
  bounded p1 s1 m -> (forall a, bounded p2 s2 (k a)) ->
  bounded (p1 + p2) (s1 + s2) (bind m k).
Proof.
  intros Hm Hk t. destruct (Hm t) as (d1 & Ht1 & Hp1 & Hs1).
  unfold bind. destruct (m t) as [t1 [a|status]]; simpl in Ht1; subst t1.
  - destruct (Hk a (t ++ d1)) as (d2 & Ht2 & Hp2 & Hs2).
    exists (d1 ++ d2). rewrite Ht2, app_assoc, !occurrences_app.
    split; [reflexivity | lia].
  - exists d1. simpl. split; [reflexivity | lia].
Qed.

Lemma bounded_if {A} p1 s1 p2 s2 (b : bool) (m1 m2 : sh A) :
  bounded p1 s1 m1 -> bounded p2 s2 m2 ->
  bounded (Nat.max p1 p2) (Nat.max s1 s2) (if b then m1 else m2).
Proof.
  intros H1 H2 t. destruct b.
  - destruct (H1 t) as (d & Ht & Hp & Hs). exists d.
    split; [exact Ht | lia].
  - destruct (H2 t) as (d & Ht & Hp & Hs). exists d.
    split; [exact Ht | lia].
Qed.

Lemma bounded_weaken {A} p s p' s' (m : sh A) :
  bounded p s m -> (p <= p')%nat -> (s <= s')%nat -> bounded p' s' m.
Proof.
  intros H Hp Hs t. destruct (H t) as (d & Ht & Hp' & Hs'). exists d.
  split; [exact Ht | lia].
Qed.

(** The loop polls and sleeps at most once per iteration left. *)
Lemma bounded_wait_loop remaining : forall attempt,
  bounded remaining remaining (wait_loop statusOf remaining attempt).
Proof.
  induction remaining as [|remaining IH]; intros attempt t.
  - rewrite wait_loop_end. eexists. split; [reflexivity|]. simpl. auto.
  - destruct (Z.eq_dec (statusOf (ranCount t)) 0) as [Hpoll|Hpoll].
    + rewrite (wait_loop_step_ready statusOf _ _ _ Hpoll).
      eexists. split; [reflexivity|].
      change (occurrences healthCheck
                [Ran healthCheck; Printed "LocalStack is ready!"%string])
        with 1%nat.
      change (occurrences ["sleep"; "5"%string]
                [Ran healthCheck; Printed "LocalStack is ready!"%string])
        with 0%nat.
      lia.
    + assert (Hattempt :
                occurrences healthCheck (failedAttempt attempt) = 1%nat
                /\ occurrences ["sleep"; "5"%string] (failedAttempt attempt)
                   = 1%nat) by (split; reflexivity).
      destruct Hattempt as [Hp Hs].
      destruct (Z.eq_dec (statusOf (S (ranCount t))) 0) as [Hsleep|Hsleep].
      * rewrite (wait_loop_step_failed statusOf _ _ _ Hpoll Hsleep).
        destruct (IH (S attempt) (t ++ failedAttempt attempt))
          as (d & Ht & Hpd & Hsd).
        exists (failedAttempt attempt ++ d).
        rewrite Ht, app_assoc, !occurrences_app, Hp, Hs.
        split; [reflexivity | lia].
      * rewrite (wait_loop_step_aborted statusOf _ _ _ Hpoll Hsleep).
        exists (failedAttempt attempt). rewrite Hp, Hs.
        split; [reflexivity | lia].
Qed.









End ShellLogic.

(** Synthesize the bounds of a step from its text. *)
Ltac count :=
  lazymatch goal with
  | |- LocalstackSh.bounded _ _ (LocalstackSh.bind _ _) =>
      eapply bounded_bind; [count | intros ?; count]
  | |- LocalstackSh.bounded _ _ (LocalstackSh.ret _) => apply bounded_ret
  | |- LocalstackSh.bounded _ _ (LocalstackSh.exit _) => apply bounded_exit
  | |- LocalstackSh.bounded _ _ (LocalstackSh.echo _) => apply bounded_echo
  | |- LocalstackSh.bounded _ _ (LocalstackSh.try _ _) => apply bounded_try
  | |- LocalstackSh.bounded _ _ (LocalstackSh.wait_loop _ _ _) =>
      apply bounded_wait_loop
  | |- LocalstackSh.bounded _ _ (if _ then _ else _) =>
      eapply bounded_if; count
  | |- LocalstackSh.bounded _ _ (let _ := _ in _) => cbv zeta; count
  | |- LocalstackSh.bounded _ _ ?m =>
      let h := (eval cbv delta
                  [LocalstackSh.checked LocalstackSh.tolerated
                   LocalstackSh.call LocalstackSh.when
                   LocalstackSh.check_localstack
                   LocalstackSh.wait_for_localstack
                   LocalstackSh.init_localstack
                   LocalstackSh.build_sample_app LocalstackSh.startFirst
                   LocalstackSh.help LocalstackSh.localstack_sh] in m) in
      progress change m with h; cbv beta; count
  end.

(** X16. Whatever the command, the arguments, the trace so far and the
    statuses of the commands it runs, one run of the script makes at most
    31 health checks and at most 30 sleeps of 5 seconds. *)
Theorem localstack_sh_polls_bounded statusOf name PROJECT_DIR timestamp argv :
  LocalstackSh.bounded 31 30
    (LocalstackSh.localstack_sh statusOf name PROJECT_DIR timestamp argv).
Proof.
  eapply bounded_weaken; [count | |]; cbn; lia.
Qed.




(** ** The LocalStack script: how the wait ends *)

Lemma wait_loop_outcomes statusOf remaining : forall attempt t,
  (snd (LocalstackSh.wait_loop statusOf remaining attempt t)
   = LocalstackSh.Done 0
   /\ exists d,
        fst (LocalstackSh.wait_loop statusOf remaining attempt t)
        = (t ++ d ++ [LocalstackSh.Ran LocalstackSh.healthCheck;
                      LocalstackSh.Printed "LocalStack is ready!"])%list
        /\ statusOf (LocalstackSh.ranCount (t ++ d)%list) = 0)
  \/ (snd (LocalstackSh.wait_loop statusOf remaining attempt t)
      = LocalstackSh.Done 1
      /\ LocalstackSh.occurrences LocalstackSh.healthCheck
           (fst (LocalstackSh.wait_loop statusOf remaining attempt t))
         = (LocalstackSh.occurrences LocalstackSh.healthCheck t
            + remaining)%nat)
  \/ (exists status d,
        snd (LocalstackSh.wait_loop statusOf remaining attempt t)
        = LocalstackSh.Exited status
        /\ status <> 0
        /\ fst (LocalstackSh.wait_loop statusOf remaining attempt t)
           = (t ++ d ++ [LocalstackSh.Ran ["sleep"; "5"]])%list
        /\ statusOf (LocalstackSh.ranCount (t ++ d)%list) = status).
Proof.
  induction remaining as [|remaining IH]; intros attempt t.
  - right; left. rewrite wait_loop_end. cbn [fst snd].
    split; [reflexivity|]. rewrite occurrences_app. reflexivity.
  - destruct (Z.eq_dec (statusOf (LocalstackSh.ranCount t)) 0)
      as [Hpoll|Hpoll].
    + left. rewrite (wait_loop_step_ready statusOf _ _ _ Hpoll).
      split; [reflexivity|]. exists []. cbn [fst app].
      now rewrite app_nil_r.
    + destruct (Z.eq_dec (statusOf (S (LocalstackSh.ranCount t))) 0)
        as [Hsleep|Hsleep].
      * rewrite (wait_loop_step_failed statusOf _ _ _ Hpoll Hsleep).
        destruct (IH (S attempt) (t ++ LocalstackSh.failedAttempt attempt)%list)
          as [(Hr & d & Ht & Hs)|[(Hr & Hn)|(s & d & Hr & Hne & Ht & Hs)]].
        -- left. split; [exact Hr|].
           exists (LocalstackSh.failedAttempt attempt ++ d)%list.
           rewrite Ht, <- !app_assoc. split; [reflexivity|].
           rewrite <- ?app_assoc in *; exact Hs.
        -- right; left. split; [exact Hr|].
           rewrite Hn, occurrences_app.
           change (LocalstackSh.occurrences LocalstackSh.healthCheck
                     (LocalstackSh.failedAttempt attempt)) with 1%nat.
           lia.
        -- right; right.
           exists s, (LocalstackSh.failedAttempt attempt ++ d)%list.
           rewrite Ht, <- !app_assoc. repeat split; auto.
           rewrite <- ?app_assoc in *; exact Hs.
      * right; right.
        rewrite (wait_loop_step_aborted statusOf _ _ _ Hpoll Hsleep).
        exists (statusOf (S (LocalstackSh.ranCount t))),
          [LocalstackSh.Ran LocalstackSh.healthCheck;
           LocalstackSh.Printed
             ("Attempt " ++ LocalstackSh.decimal attempt ++ "/"
              ++ LocalstackSh.decimal LocalstackSh.max_attempts
              ++ ": LocalStack not ready yet...")].
        cbn [fst snd]. repeat split; auto.
        rewrite ranCount_app. cbn [LocalstackSh.ranCount].
        f_equal. lia.
Qed.

(** X15. However the machine answers, the wait ends in one of three ways: it
    returns 0 right after a health check that succeeded; it returns 1
    after thirty health checks; or a [sleep] fails and ends the script
    with its status. *)
Theorem wait_for_localstack_outcomes statusOf t :
  (snd (LocalstackSh.wait_for_localstack statusOf t) = LocalstackSh.Done 0
   /\ exists d,
        fst (LocalstackSh.wait_for_localstack statusOf t)
        = (t ++ d ++ [LocalstackSh.Ran LocalstackSh.healthCheck;
                      LocalstackSh.Printed "LocalStack is ready!"])%list
        /\ statusOf (LocalstackSh.ranCount (t ++ d)%list) = 0)
  \/ (snd (LocalstackSh.wait_for_localstack statusOf t)
      = LocalstackSh.Done 1
      /\ LocalstackSh.occurrences LocalstackSh.healthCheck
           (fst (LocalstackSh.wait_for_localstack statusOf t))
         = (LocalstackSh.occurrences LocalstackSh.healthCheck t + 30)%nat)
  \/ (exists status d,
        snd (LocalstackSh.wait_for_localstack statusOf t)
        = LocalstackSh.Exited status
        /\ status <> 0
        /\ fst (LocalstackSh.wait_for_localstack statusOf t)
           = (t ++ d ++ [LocalstackSh.Ran ["sleep"; "5"]])%list
        /\ statusOf (LocalstackSh.ranCount (t ++ d)%list) = status).
Proof.
  unfold LocalstackSh.wait_for_localstack, LocalstackSh.bind,
    LocalstackSh.echo.
  destruct (wait_loop_outcomes statusOf LocalstackSh.max_attempts 1%nat
              (t ++ [LocalstackSh.Printed
                       "Waiting for LocalStack to be ready..."])%list)
    as [(Hr & d & Ht & Hs)|[(Hr & Hn)|(s & d & Hr & Hne & Ht & Hs)]].
  - left. split; [exact Hr|].
    exists ([LocalstackSh.Printed "Waiting for LocalStack to be ready..."]
            ++ d)%list.
    rewrite Ht, <- !app_assoc. split; [reflexivity|].
    rewrite <- ?app_assoc in *; exact Hs.
  - right; left. split; [exact Hr|].
    rewrite Hn, occurrences_app.
    change (LocalstackSh.occurrences LocalstackSh.healthCheck
              [LocalstackSh.Printed "Waiting for LocalStack to be ready..."])
      with 0%nat.
    unfold LocalstackSh.max_attempts. lia.
  - right; right.
    exists s,
      ([LocalstackSh.Printed "Waiting for LocalStack to be ready..."]
       ++ d)%list.
    rewrite Ht, <- !app_assoc. repeat split; auto.
    rewrite <- ?app_assoc in *; exact Hs.
Qed.

(** ** The LocalStack script: initialization and help *)

(** X18. Whatever statuses its commands end with, the initialization runs all
    of them, nine [aws] calls and the [date] for the caller reference, in
    this order, and never ends the script. *)
Theorem init_localstack_never_fails statusOf timestamp t :
  exists d,
    LocalstackSh.init_localstack statusOf timestamp t
    = ((t ++ d)%list, LocalstackSh.Done tt)
    /\ map (firstn 3) (LocalstackSh.commands d)
       = [ ["aws"; "ec2"; "create-default-vpc"];
           ["aws"; "ec2"; "create-security-group"];
           ["aws"; "ec2"; "authorize-security-group-ingress"];
           ["aws"; "ec2"; "authorize-security-group-ingress"];
           ["aws"; "ec2"; "authorize-security-group-ingress"];
           ["aws"; "iam"; "create-role"];
           ["aws"; "iam"; "attach-role-policy"];
           ["aws"; "acm"; "request-certificate"];
           ["date"; "+%s"];
           ["aws"; "route53"; "create-hosted-zone"] ]
    /\ In (LocalstackSh.Printed "LocalStack initialization completed!") d.
Proof.
  cbv beta iota delta
    [LocalstackSh.init_localstack LocalstackSh.tolerated LocalstackSh.bind
     LocalstackSh.try LocalstackSh.echo LocalstackSh.ret].
  eexists. split; [|split].
  - rewrite <- !app_assoc. reflexivity.
  - reflexivity.
  - simpl. tauto.
Qed.

(** X19. A first argument that names no command, or none at all, makes the
    script print its help and end with status 0, having run nothing but
    the test for the environment file and, where the file is there, its
    sourcing; this holds unless the sourcing fails. *)
Theorem localstack_sh_unknown_command
    statusOf name PROJECT_DIR timestamp argv :
  ~ In (DeploySh.orElse (DeploySh.positional argv 1) "help")
      LocalstackSh.commandNames ->
  (statusOf 0%nat = 0 -> statusOf 1%nat = 0) ->
  LocalstackSh.status
    (snd (LocalstackSh.localstack_sh statusOf name PROJECT_DIR timestamp
            argv []))
  = 0
  /\ In (LocalstackSh.Printed ("Usage: " ++ name ++ " [command]"))
       (fst (LocalstackSh.localstack_sh statusOf name PROJECT_DIR timestamp
               argv []))
  /\ incl
       (LocalstackSh.commands
          (fst (LocalstackSh.localstack_sh statusOf name PROJECT_DIR
                  timestamp argv [])))
       [ ["["; "-f"; PROJECT_DIR ++ "/.env.localstack"; "]"];
         ["source"; PROJECT_DIR ++ "/.env.localstack"] ].
Proof.
  intros Hnot Hsource.
  unfold LocalstackSh.localstack_sh. cbv zeta.
  revert Hnot.
  generalize (DeploySh.orElse (DeploySh.positional argv 1) "help").
  intros c Hnot.
  repeat match goal with
         | |- context [String.eqb c ?n] =>
             let E := fresh "E" in
             destruct (String.eqb c n) eqn:E;
             [ apply String.eqb_eq in E; exfalso; apply Hnot; rewrite E;
               unfold LocalstackSh.commandNames; simpl; tauto | ]
         end.
  unfold LocalstackSh.bind, LocalstackSh.try, LocalstackSh.when,
    LocalstackSh.checked, LocalstackSh.bind, LocalstackSh.try,
    LocalstackSh.help, LocalstackSh.bind, LocalstackSh.echo,
    LocalstackSh.ret, LocalstackSh.exit.
  cbn [LocalstackSh.ranCount app].
  destruct (Z.eq_dec (statusOf 0%nat) 0) as [Hfile|Hfile].
  - rewrite Hfile. cbn. rewrite (Hsource Hfile). cbn.
    repeat split; [tauto|].
    intros x [<-|[<-|[]]]; simpl; tauto.
  - apply Z.eqb_neq in Hfile. rewrite Hfile. cbn.
    repeat split; [tauto|].
    intros x [<-|[]]; simpl; tauto.
Qed.

Lemma localstack_sh_unknown_command_witness :
  LocalstackSh.status
    (snd (LocalstackSh.localstack_sh (fun _ => 1) "./scripts/localstack.sh"
            "/srv/ecs" ["1700000000"] ["deploy-all"] []))
  = 0.
Proof.
  apply (localstack_sh_unknown_command (fun _ => 1) "./scripts/localstack.sh"
           "/srv/ecs" ["1700000000"] ["deploy-all"]).
  - unfold LocalstackSh.commandNames. simpl. intuition discriminate.
  - discriminate.
Defined.
